(** * AudioGridder server: crash-safe plugin discovery and the accept loop

    A shallow embedding of [Server/Source/Server.cpp].  The member functions
    of [e47::Server] become functions on a pair of the object's fields and
    the world outside it (three files and a trace of observable actions).
    Everything the server calls but does not define (JUCE's strings and
    plugin list, the plugin formats, child processes, the listening socket)
    is either modelled in the module [juce] below or taken from an
    environment record [Env]. *)

From stdpp Require Import base strings list gmap pretty.
From Stdlib Require Import ZArith Lia Ascii String.

Local Open Scope Z_scope.

(** ** JUCE classes used by the server *)

Module juce.

(** [juce::String].  A Rocq string stands for the characters before the
    terminating NUL, so reaching the end of one string first decides a
    comparison.  Case folding is the ASCII one. *)

Definition code (c : ascii) : Z := Z.of_N (N_of_ascii c).

Definition toUpperCase (c : ascii) : ascii :=
  if (97 <=? code c) && (code c <=? 122)
  then ascii_of_N (Z.to_N (code c - 32))
  else c.

(** [CharacterFunctions::compare (juce_wchar, juce_wchar)] *)
Definition compareChar (char1 char2 : Z) : Z :=
  let diff := char1 - char2 in
  if diff =? 0 then 0 else if diff <? 0 then -1 else 1.

(** [String::compare]: -1, 0 or 1. *)
Fixpoint compare (s1 s2 : string) : Z :=
  match s1, s2 with
  | EmptyString, EmptyString => 0
  | EmptyString, String _ _ => -1
  | String _ _, EmptyString => 1
  | String c1 r1, String c2 r2 =>
      let diff := compareChar (code c1) (code c2) in
      if diff =? 0 then compare r1 r2 else diff
  end.

(** [CharPointer::compareIgnoreCaseUpTo] *)
Fixpoint compareIgnoreCaseUpTo (s1 s2 : string) (maxChars : nat) {struct maxChars} : Z :=
  match maxChars with
  | O => 0
  | S n =>
      match s1, s2 with
      | EmptyString, EmptyString => 0
      | EmptyString, String _ _ => -1
      | String _ _, EmptyString => 1
      | String c1 r1, String c2 r2 =>
          let diff := compareChar (code (toUpperCase c1)) (code (toUpperCase c2)) in
          if diff =? 0 then compareIgnoreCaseUpTo r1 r2 n else diff
      end
  end.

(** [CharacterFunctions::indexOfIgnoreCase]: the loop that tries every
    start position of the haystack in turn. *)
Fixpoint indexOfIgnoreCaseFrom (haystack needle : string) (index : Z) : Z :=
  if compareIgnoreCaseUpTo haystack needle (String.length needle) =? 0
  then index
  else match haystack with
       | EmptyString => -1
       | String _ rest => indexOfIgnoreCaseFrom rest needle (index + 1)
       end.

Definition indexOfIgnoreCase (s t : string) : Z :=
  match t with
  | EmptyString => 0
  | _ => indexOfIgnoreCaseFrom s t 0
  end.

Definition containsIgnoreCase (s t : string) : bool :=
  0 <=? indexOfIgnoreCase s t.

(** [String::compareIgnoreCase] *)
Fixpoint compareIgnoreCase (s1 s2 : string) : Z :=
  match s1, s2 with
  | EmptyString, EmptyString => 0
  | EmptyString, String _ _ => -1
  | String _ _, EmptyString => 1
  | String c1 r1, String c2 r2 =>
      let diff := compareChar (code (toUpperCase c1)) (code (toUpperCase c2)) in
      if diff =? 0 then compareIgnoreCase r1 r2 else diff
  end.

(** [StringArray::contains], case-sensitive as the server calls it. *)
Definition contains (a : list string) (s : string) : bool :=
  existsb (fun x => compare x s =? 0) a.

(** [juce::PluginDescription], the fields the server and the list read. *)
Record PluginDescription := mkPluginDescription {
  name : string;
  descriptiveName : string;
  pluginFormatName : string;
  fileOrIdentifier : string;
  uid : Z
}.

Definition isDuplicateOf (a b : PluginDescription) : bool :=
  (compare (fileOrIdentifier a) (fileOrIdentifier b) =? 0) && (uid a =? uid b).

(** [juce::KnownPluginList]: the descriptors and the blacklist. *)
Record KnownPluginList := mkKnownPluginList {
  types : list PluginDescription;
  blacklist : list string
}.

Definition emptyList : KnownPluginList := mkKnownPluginList [] [].

Definition getTypes (l : KnownPluginList) : list PluginDescription := types l.

Definition getBlacklistedFiles (l : KnownPluginList) : list string := blacklist l.

Definition addToBlacklist (pluginID : string) (l : KnownPluginList) : KnownPluginList :=
  if contains (blacklist l) pluginID then l
  else mkKnownPluginList (types l) (blacklist l ++ [pluginID]).

(** The first descriptor whose file or identifier is the one asked for. *)
Definition getTypeForFile (l : KnownPluginList) (fileOrId : string)
  : option PluginDescription :=
  List.find (fun d => compare (fileOrIdentifier d) fileOrId =? 0) (types l).

(** [addType]: a duplicate is overwritten in place, a new descriptor goes
    to the front. *)
Fixpoint replaceDuplicate (type : PluginDescription) (ts : list PluginDescription)
  : option (list PluginDescription) :=
  match ts with
  | [] => None
  | d :: rest =>
      if isDuplicateOf d type then Some (type :: rest)
      else match replaceDuplicate type rest with
           | Some rest' => Some (d :: rest')
           | None => None
           end
  end.

Definition addType (type : PluginDescription) (l : KnownPluginList) : KnownPluginList :=
  match replaceDuplicate type (types l) with
  | Some ts => mkKnownPluginList ts (blacklist l)
  | None => mkKnownPluginList (type :: types l) (blacklist l)
  end.

(** The children of the KNOWNPLUGINS element of the catalog file. *)
Inductive XmlElement :=
| PLUGIN (d : PluginDescription)
| BLACKLISTED (id : string).

Definition createXml (l : KnownPluginList) : list XmlElement :=
  map PLUGIN (types l) ++ map BLACKLISTED (blacklist l).

(** [recreateFromXml] forgets the descriptors and the blacklist it holds
    and rebuilds both from the document. *)
Definition recreateFromXml (xml : list XmlElement) (_ : KnownPluginList) : KnownPluginList :=
  fold_left
    (fun l e =>
       match e with
       | BLACKLISTED id => mkKnownPluginList (types l) (blacklist l ++ [id])
       | PLUGIN info => addType info l
       end)
    xml emptyList.

(** Modelled from the spec: [KnownPluginList::sort (sortAlphabetically, true)]
    orders the descriptors alphabetically by name, ignoring case, and keeps
    descriptors of equal names in the order they had (a stable sort). *)
Definition before (a b : PluginDescription) : bool :=
  compareIgnoreCase (name a) (name b) <? 0.

Fixpoint insertSorted (x : PluginDescription) (l : list PluginDescription)
  : list PluginDescription :=
  match l with
  | [] => [x]
  | y :: rest => if before x y then x :: y :: rest
                 else y :: insertSorted x rest
  end.

Definition sortAlphabetically (l : list PluginDescription) : list PluginDescription :=
  fold_left (fun acc x => insertSorted x acc) l [].

Definition sort (l : KnownPluginList) : KnownPluginList :=
  mkKnownPluginList (sortAlphabetically (types l)) (blacklist l).

End juce.

Import juce.

(** ** The world outside the server object *)

(** The three plugin formats; [getName] is the tag [scanPlugin] selects on. *)
Inductive AudioPluginFormat := AudioUnitPluginFormat | VST3PluginFormat | VSTPluginFormat.

Definition getName (fmt : AudioPluginFormat) : string :=
  match fmt with
  | AudioUnitPluginFormat => "AudioUnit"
  | VST3PluginFormat => "VST3"
  | VSTPluginFormat => "VST"
  end.

(** A C++ [float].  The server only copies the screen quality between the
    config file and the object, so the value is carried as an opaque number. *)
Definition float : Type := Z.

(** The config file as [json::parse] returns it: every key may be absent. *)
Record json := mkJson {
  j_ID : option Z;
  j_AU : option bool;
  j_VST : option bool;
  j_VST2 : option bool;
  j_ScreenQuality : option float;
  j_ScreenDiffDetection : option bool;
  j_ExcludePlugins : option (list string)
}.

(** The files the server reads and writes, [None] when the file does not
    exist.  The dead-man's file is held as the lines [readLines] returns. *)
Record Files := mkFiles {
  SERVER_CONFIG_FILE : option json;
  KNOWN_PLUGINS_FILE : option (list XmlElement);
  DEAD_MANS_FILE : option (list string)
}.

Record StreamingSocket := mkStreamingSocket {
  getHostName : string;
  getRawSocketHandle : Z
}.

(** A worker thread owns the client socket it was created for. *)
Record Worker := mkWorker { clnt : StreamingSocket }.

(** What the server does that is seen from outside, besides the files. *)
Inductive Event :=
| Logln (msg : string)
| SetSplashInfo (msg : string)
| HideSplashWindow
| ProcStart (args : list string) (started : bool)
| ProcWait (timeoutMs : Z)
| ProcKill
| SetNoSigPipe
| CreateListener (port : Z) (host : string) (ok : bool)
| Accept (c : option StreamingSocket)
| StartThread (w : Worker)
| CallAsyncClear (deadWorkers : list Worker)
| Callback (arg : bool).

(** Files and trace; the newest event is at the head of the trace. *)
Record World := mkWorld {
  files : Files;
  trace : list Event
}.

(** What one call of [PluginDirectoryScanner::scanNextFile] on a single
    identifier does inside the scan process.  While the plugin is being
    loaded the dead-man's file holds [deadMansInFlight]; the call then
    returns after [ms] milliseconds with the list it filled, the files that
    failed and the dead-man's file it leaves, or it never returns because
    the plugin crashed the process (exit code, time of death) or hangs. *)
Inductive ScanEnding :=
| ScanReturned (plist : KnownPluginList) (failedFiles : list string)
    (deadMans : option (list string)) (ms : Z)
| ScanCrashed (exitCode : Z) (ms : Z)
| ScanHangs.

Record ScanStep := mkScanStep {
  deadMansInFlight : option (list string);
  scanEnding : ScanEnding
}.

(** The collaborators of the server: platform, plugin formats, process
    launcher and listening socket. *)
Record Env := mkEnv {
  JUCE_MAC : bool;
  searchPathsForPlugins : AudioPluginFormat -> list string;
  getNameOfPluginFromIdentifier : AudioPluginFormat -> string -> string;
  pluginNeedsRescanning : AudioPluginFormat -> PluginDescription -> bool;
  scanNextFile : AudioPluginFormat -> string -> KnownPluginList ->
                 option (list string) -> ScanStep;
  currentExecutableFile : string;
  procStart : list string -> bool;
  createListener : Z -> string -> bool
}.

(** ** The server object *)

Record Server := mkServer {
  m_id : Z;
  m_port : Z;
  m_host : string;
  m_enableAU : bool;
  m_enableVST : bool;
  m_enableVST2 : bool;
  m_screenJpgQuality : float;
  m_screenDiffDetection : bool;
  m_pluginexclude : gset string;
  m_pluginlist : KnownPluginList;
  m_workers : list Worker
}.

Definition State : Type := Server * World.

Definition set_id (v : Z) (s : Server) : Server :=
  mkServer v (m_port s) (m_host s) (m_enableAU s) (m_enableVST s) (m_enableVST2 s)
    (m_screenJpgQuality s) (m_screenDiffDetection s) (m_pluginexclude s)
    (m_pluginlist s) (m_workers s).
Definition set_enableAU (v : bool) (s : Server) : Server :=
  mkServer (m_id s) (m_port s) (m_host s) v (m_enableVST s) (m_enableVST2 s)
    (m_screenJpgQuality s) (m_screenDiffDetection s) (m_pluginexclude s)
    (m_pluginlist s) (m_workers s).
Definition set_enableVST (v : bool) (s : Server) : Server :=
  mkServer (m_id s) (m_port s) (m_host s) (m_enableAU s) v (m_enableVST2 s)
    (m_screenJpgQuality s) (m_screenDiffDetection s) (m_pluginexclude s)
    (m_pluginlist s) (m_workers s).
Definition set_enableVST2 (v : bool) (s : Server) : Server :=
  mkServer (m_id s) (m_port s) (m_host s) (m_enableAU s) (m_enableVST s) v
    (m_screenJpgQuality s) (m_screenDiffDetection s) (m_pluginexclude s)
    (m_pluginlist s) (m_workers s).
Definition set_screenJpgQuality (v : float) (s : Server) : Server :=
  mkServer (m_id s) (m_port s) (m_host s) (m_enableAU s) (m_enableVST s) (m_enableVST2 s)
    v (m_screenDiffDetection s) (m_pluginexclude s)
    (m_pluginlist s) (m_workers s).
Definition set_screenDiffDetection (v : bool) (s : Server) : Server :=
  mkServer (m_id s) (m_port s) (m_host s) (m_enableAU s) (m_enableVST s) (m_enableVST2 s)
    (m_screenJpgQuality s) v (m_pluginexclude s)
    (m_pluginlist s) (m_workers s).
Definition set_pluginexclude (v : gset string) (s : Server) : Server :=
  mkServer (m_id s) (m_port s) (m_host s) (m_enableAU s) (m_enableVST s) (m_enableVST2 s)
    (m_screenJpgQuality s) (m_screenDiffDetection s) v
    (m_pluginlist s) (m_workers s).
Definition set_pluginlist (v : KnownPluginList) (s : Server) : Server :=
  mkServer (m_id s) (m_port s) (m_host s) (m_enableAU s) (m_enableVST s) (m_enableVST2 s)
    (m_screenJpgQuality s) (m_screenDiffDetection s) (m_pluginexclude s)
    v (m_workers s).
Definition set_workers (v : list Worker) (s : Server) : Server :=
  mkServer (m_id s) (m_port s) (m_host s) (m_enableAU s) (m_enableVST s) (m_enableVST2 s)
    (m_screenJpgQuality s) (m_screenDiffDetection s) (m_pluginexclude s)
    (m_pluginlist s) v.

Definition emit (e : Event) (st : State) : State :=
  (st.1, mkWorld (files st.2) (e :: trace st.2)).

Definition logln (msg : string) (st : State) : State := emit (Logln msg) st.

Definition setFiles (f : Files) (st : State) : State :=
  (st.1, mkWorld f (trace st.2)).

Definition onServer (f : Server -> Server) (st : State) : State := (f st.1, st.2).

Definition enabled (b : bool) : string := if b then "enabled" else "disabled".

(** [Server::saveConfig]: every key is written, the file is replaced. *)
Definition saveConfig (st : State) : State :=
  let s := st.1 in
  let j := mkJson (Some (m_id s)) (Some (m_enableAU s)) (Some (m_enableVST s))
             (Some (m_enableVST2 s)) (Some (m_screenJpgQuality s))
             (Some (m_screenDiffDetection s))
             (Some (elements (m_pluginexclude s))) in
  setFiles (mkFiles (Some j) (KNOWN_PLUGINS_FILE (files st.2)) (DEAD_MANS_FILE (files st.2))) st.

(** [Server::loadKnownPluginList (KnownPluginList&)] *)
Definition loadKnownPluginListInto (plist : KnownPluginList) (f : Files) : KnownPluginList :=
  match KNOWN_PLUGINS_FILE f with
  | Some xml => recreateFromXml xml plist
  | None => plist
  end.

(** [Server::loadKnownPluginList ()] *)
Definition loadKnownPluginList (st : State) : State :=
  onServer (set_pluginlist (loadKnownPluginListInto (m_pluginlist st.1) (files st.2))) st.

(** [Server::saveKnownPluginList (KnownPluginList&)] *)
Definition saveKnownPluginListFrom (plist : KnownPluginList) (f : Files) : Files :=
  mkFiles (SERVER_CONFIG_FILE f) (Some (createXml plist)) (DEAD_MANS_FILE f).

(** [Server::saveKnownPluginList ()] *)
Definition saveKnownPluginList (st : State) : State :=
  setFiles (saveKnownPluginListFrom (m_pluginlist st.1) (files st.2)) st.

(** The key by key part of [Server::loadConfig]. *)
Definition readConfig (j : json) (st : State) : State :=
  let st := match j_ID j with
            | Some v => onServer (set_id v) st
            | None => st
            end in
  let st := match j_AU j with
            | Some v => logln ("AudioUnit support " +:+ enabled v) (onServer (set_enableAU v) st)
            | None => st
            end in
  let st := match j_VST j with
            | Some v => logln ("VST3 support " +:+ enabled v) (onServer (set_enableVST v) st)
            | None => st
            end in
  let st := match j_VST2 j with
            | Some v => logln ("VST2 support " +:+ enabled v) (onServer (set_enableVST2 v) st)
            | None => st
            end in
  let st := match j_ScreenQuality j with
            | Some v => onServer (set_screenJpgQuality v) st
            | None => st
            end in
  let st := match j_ScreenDiffDetection j with
            | Some v => logln ("screen capture difference detection " +:+ enabled v)
                          (onServer (set_screenDiffDetection v) st)
            | None => st
            end in
  match j_ExcludePlugins j with
  | Some l => onServer (fun s => set_pluginexclude
                          (fold_left (fun ex x => {[x]} ∪ ex) l (m_pluginexclude s)) s) st
  | None => st
  end.

(** The dead-man's file part of [Server::loadConfig]: every line goes to
    the blacklist, the file is deleted, the config is saved. *)
Definition drainDeadMansFile (st : State) : State :=
  match DEAD_MANS_FILE (files st.2) with
  | Some lines =>
      let st := onServer (fun s => set_pluginlist
                            (fold_left (fun l line => addToBlacklist line l) lines
                               (m_pluginlist s)) s) st in
      let st := setFiles (mkFiles (SERVER_CONFIG_FILE (files st.2))
                            (KNOWN_PLUGINS_FILE (files st.2)) None) st in
      saveConfig st
  | None => st
  end.

(** [Server::loadConfig] *)
Definition loadConfig (st : State) : State :=
  let st := logln "starting server..." st in
  let st := match SERVER_CONFIG_FILE (files st.2) with
            | Some j => readConfig j st
            | None => st
            end in
  drainDeadMansFile st.

(** [Server::shouldExclude (name, include)] *)
Definition shouldExclude (s : Server) (name : string) (include : list string) : bool :=
  if containsIgnoreCase name "AGridder" || containsIgnoreCase name "AudioGridder" then true
  else if (0 <? Z.of_nat (List.length include)) then
    negb (existsb (fun incl => compare name incl =? 0) include)
  else
    existsb (fun excl => compare name excl =? 0) (elements (m_pluginexclude s)).

(** [Server::shouldExclude (name)] *)
Definition shouldExclude1 (s : Server) (name : string) : bool :=
  let emptylist : list string := [] in
  shouldExclude s name emptylist.

(** ** Scanning *)

(** A run of code that may not return: the files as they are while it
    runs, and how it ends. *)
Inductive Ending (A : Type) :=
| Returns (a : A) (f : Files) (ms : Z)
| Crashes (exitCode : Z) (ms : Z)
| Hangs.
Arguments Returns {A} a f ms.
Arguments Crashes {A} exitCode ms.
Arguments Hangs {A}.

Record Run (A : Type) := mkRun {
  whileRunning : Files;
  ending : Ending A
}.
Arguments mkRun {A} whileRunning ending.
Arguments whileRunning {A} r.
Arguments ending {A} r.

Definition withDeadMans (dm : option (list string)) (f : Files) : Files :=
  mkFiles (SERVER_CONFIG_FILE f) (KNOWN_PLUGINS_FILE f) dm.

(** [ChildProcess::isRunning] once [timeoutMs] milliseconds have passed. *)
Definition isRunningAfter {A} (timeoutMs : Z) (p : Run A) : bool :=
  match ending p with
  | Returns _ _ ms => timeoutMs <? ms
  | Crashes _ ms => timeoutMs <? ms
  | Hangs => true
  end.

(** The files a process leaves when it has ended by itself. *)
Definition filesAtExit {A} (p : Run A) : Files :=
  match ending p with
  | Returns _ f _ => f
  | _ => whileRunning p
  end.

(** One turn of the accept loop as the control thread sees it. *)
Record Tick := mkTick {
  currentThreadShouldExit : bool;
  waitForNextConnection : option StreamingSocket;
  isThreadRunning : Worker -> bool
}.

Section Server.

Variable env : Env.

(** [Server::scanPlugin], the body of the scan process. *)
Definition scanPlugin (id format : string) (f : Files) : Run bool :=
  let fmt :=
    if compare format "VST" =? 0 then Some VSTPluginFormat
    else if compare format "VST3" =? 0 then Some VST3PluginFormat
    else if JUCE_MAC env && (compare format "AudioUnit" =? 0) then Some AudioUnitPluginFormat
    else None in
  match fmt with
  | None => mkRun f (Returns false f 0)
  | Some fmt =>
      let plist := loadKnownPluginListInto emptyList f in
      let step := scanNextFile env fmt id plist (DEAD_MANS_FILE f) in
      mkRun (withDeadMans (deadMansInFlight step) f)
        match scanEnding step with
        | ScanReturned plist failedFiles deadMans ms =>
            let plist := fold_left (fun l x => addToBlacklist x l) failedFiles plist in
            let success := match failedFiles with [] => true | _ => false end in
            Returns success (saveKnownPluginListFrom plist (withDeadMans deadMans f)) ms
        | ScanCrashed exitCode ms => Crashes exitCode ms
        | ScanHangs => Hangs
        end
  end.

(** Modelled from the spec: the entry point of the executable is not in
    the source file.  Invoked with a scan directive and an
    [identifier|formatName] argument it runs exactly one probe and exits
    with code 0 on success, non-zero on failure. *)
Definition scanProcess (id fmt : string) (f : Files) : Run Z :=
  let r := scanPlugin id fmt f in
  mkRun (whileRunning r)
    match ending r with
    | Returns success f' ms => Returns (if success then 0 else 1) f' ms
    | Crashes exitCode ms => Crashes exitCode ms
    | Hangs => Hangs
    end.

Definition getExitCode (p : Run Z) : Z :=
  match ending p with
  | Returns ec _ _ => ec
  | Crashes ec _ => ec
  | Hangs => 0
  end.

(** [Server::scanNextPlugin] *)
Definition scanNextPlugin (id fmt : string) (st : State) : State :=
  let fileFmt := id +:+ "|" +:+ fmt in
  let args := [currentExecutableFile env; "-scan"; fileFmt] in
  if procStart env args then
    let st := emit (ProcStart args true) st in
    let proc := scanProcess id fmt (files st.2) in
    let st := emit (ProcWait 30000) st in
    if isRunningAfter 30000 proc then
      let st := logln "error: scan timeout, killing scan process" st in
      let st := emit ProcKill st in
      setFiles (whileRunning proc) st
    else
      let st := setFiles (filesAtExit proc) st in
      let ec := getExitCode proc in
      if negb (ec =? 0)
      then logln ("error: scan failed with exit code " +:+ pretty ec) st
      else st
  else
    let st := emit (ProcStart args false) st in
    logln "error: failed to start scan process" st.

(** The formats [scanForPlugins] walks, in its order. *)
Definition enabledFormats (s : Server) : list AudioPluginFormat :=
  (if JUCE_MAC env && m_enableAU s then [AudioUnitPluginFormat] else []) ++
  (if m_enableVST s then [VST3PluginFormat] else []) ++
  (if m_enableVST2 s then [VSTPluginFormat] else []).

(** The condition under which [scanForPlugins] probes an identifier. *)
Definition needsProbe (s : Server) (include : list string)
    (fmt : AudioPluginFormat) (fileOrId : string) : bool :=
  let name := getNameOfPluginFromIdentifier env fmt fileOrId in
  let plugindesc := getTypeForFile (m_pluginlist s) fileOrId in
  match plugindesc with
  | None => true
  | Some d => pluginNeedsRescanning env fmt d
  end
  && negb (contains (getBlacklistedFiles (m_pluginlist s)) fileOrId)
  && negb (shouldExclude s name include).

(** The body of the inner loop of [scanForPlugins]. *)
Definition scanOne (include : list string) (fmt : AudioPluginFormat)
    (acc : gset string * State) (fileOrId : string) : gset string * State :=
  let neverSeenList := acc.1 in
  let st := acc.2 in
  let name := getNameOfPluginFromIdentifier env fmt fileOrId in
  let st :=
    if needsProbe st.1 include fmt fileOrId then
      let st := logln ("  scanning: " +:+ name) st in
      let st := emit (SetSplashInfo ("Scanning plugin " +:+ name +:+ "...")) st in
      scanNextPlugin fileOrId (getName fmt) st
    else
      logln ("  (skipping: " +:+ name +:+ ")") st in
  (neverSeenList ∖ {[name]}, st).

(** The outer loop body: all identifiers one format finds. *)
Definition scanFormat (include : list string)
    (acc : gset string * State) (fmt : AudioPluginFormat) : gset string * State :=
  fold_left (scanOne include fmt) (searchPathsForPlugins env fmt) acc.

(** [Server::scanForPlugins (include)] *)
Definition scanForPlugins (include : list string) (st : State) : State :=
  let st := logln "scanning for plugins..." st in
  let fmts := enabledFormats st.1 in
  let neverSeenList := m_pluginexclude st.1 in
  let st := loadKnownPluginList st in
  let acc := fold_left (scanFormat include) fmts (neverSeenList, st) in
  let neverSeenList := acc.1 in
  let st := acc.2 in
  let st := loadKnownPluginList st in
  let st := onServer (fun s => set_pluginlist (sort (m_pluginlist s)) s) st in
  let st := onServer (fun s => set_pluginexclude
                        (fold_left (fun ex name => ex ∖ {[name]})
                           (elements neverSeenList) (m_pluginexclude s)) s) st in
  logln "scan for plugins finished." st.

(** [Server::scanForPlugins ()] *)
Definition scanForPlugins0 (st : State) : State :=
  let emptylist : list string := [] in
  scanForPlugins emptylist st.

(** The loop of [addPlugins] that reports to the callback. *)
Fixpoint reportFound (names : list string) (st : State) : State :=
  match names with
  | [] => emit (Callback true) st
  | name :: rest =>
      let found := existsb (fun p => compare name (descriptiveName p) =? 0)
                     (getTypes (m_pluginlist st.1)) in
      if negb found then emit (Callback false) st
      else reportFound rest st
  end.

(** [Server::addPlugins]: the body of the detached thread, run to its end.
    [fn] tells whether the callback is non-null; a call of it is the event
    [Callback]. *)
Definition addPlugins (names : list string) (fn : bool) (st : State) : State :=
  let st := scanForPlugins names st in
  let st := saveConfig st in
  let st := saveKnownPluginList st in
  if fn then reportFound names st else st.

(** The lazy cleanup of the accept loop: workers whose thread has ended
    are moved, in order, to [deadWorkers]. *)
Fixpoint lazyCleanup (running : Worker -> bool) (ws : list Worker)
  : list Worker * list Worker :=
  match ws with
  | [] => ([], [])
  | w :: rest =>
      let r := lazyCleanup running rest in
      if negb (running w) then (w :: r.1, r.2) else (r.1, w :: r.2)
  end.

(** The accept loop of [Server::run], driven by what each turn observes.
    When the script is used up the thread is blocked waiting for the
    next connection. *)
Fixpoint acceptLoop (script : list Tick) (st : State) : State :=
  match script with
  | [] => st
  | t :: rest =>
      if currentThreadShouldExit t then st
      else
        let st := emit (Accept (waitForNextConnection t)) st in
        match waitForNextConnection t with
        | Some c =>
            let st := logln ("new client " +:+ getHostName c) st in
            let w := mkWorker c in
            let st := onServer (fun s => set_workers (m_workers s ++ [w]) s) st in
            let st := emit (StartThread w) st in
            let r := lazyCleanup (isThreadRunning t) (m_workers st.1) in
            let st := onServer (set_workers r.2) st in
            let st := emit (CallAsyncClear r.1) st in
            acceptLoop rest st
        | None => acceptLoop rest st
        end
  end.

(** [Server::run] *)
Definition run (script : list Tick) (st : State) : State :=
  let st := scanForPlugins0 st in
  let st := saveConfig st in
  let st := saveKnownPluginList st in
  let st := emit HideSplashWindow st in
  let st := if JUCE_MAC env then emit SetNoSigPipe st else st in
  let s := st.1 in
  let st := logln ("creating listener " +:+
                   (if (String.length (m_host s) =? 0)%nat then "*" else m_host s) +:+
                   ":" +:+ pretty (m_port s + m_id s)) st in
  let ok := createListener env (m_port s + m_id s) (m_host s) in
  let st := emit (CreateListener (m_port s + m_id s) (m_host s) ok) st in
  if ok then
    let st := logln ("server started: ID=" +:+ pretty (m_id s) +:+
                     ", PORT=" +:+ pretty (m_port s + m_id s)) st in
    acceptLoop script st
  else
    logln "failed to create listener" st.

End Server.

(** ** Vocabulary of the specification *)

(** Case folding of a whole string. *)
Fixpoint upper (s : string) : string :=
  match s with
  | EmptyString => EmptyString
  | String c r => String (toUpperCase c) (upper r)
  end.

(** [t] occurs in [s] when case is ignored. *)
Definition occursIgnoreCase (s t : string) : Prop :=
  exists pre mid post, s = pre +:+ mid +:+ post /\ upper mid = upper t.

(** The name carries one of the product identifiers of the host. *)
Definition namesHost (name : string) : Prop :=
  occursIgnoreCase name "AGridder" \/ occursIgnoreCase name "AudioGridder".

(** The arguments of the [ProcStart] events of a trace, newest first. *)
Definition launches (tr : list Event) : list (list string) :=
  omap (fun e => match e with ProcStart args _ => Some args | _ => None end) tr.

(** The arguments of the [Callback] events of a trace, newest first. *)
Definition callbacks (tr : list Event) : list bool :=
  omap (fun e => match e with Callback b => Some b | _ => None end) tr.

(** The connections and worker threads a trace shows. *)
Definition connections (tr : list Event) : list Event :=
  List.filter (fun e => match e with Accept _ | StartThread _ => true | _ => false end) tr.

(** The process events of a trace (start, wait, kill), newest first. *)
Definition processEvents (tr : list Event) : list Event :=
  List.filter (fun e => match e with
                        | ProcStart _ _ | ProcWait _ | ProcKill => true
                        | _ => false
                        end) tr.

(** The milliseconds the waits of a trace allow in all: the sum of the
    timeouts of its [ProcWait] events. *)
Definition waited (tr : list Event) : Z :=
  fold_right (fun e acc => match e with ProcWait ms => ms + acc | _ => acc end) 0 tr.

(** The events a scan pass may add to the trace. *)
Definition isScanEvent (e : Event) : Prop :=
  match e with
  | Logln _ | SetSplashInfo _ | ProcStart _ _ | ProcWait _ | ProcKill => True
  | _ => False
  end.

(** Every plugin a pass enumerates, with the format that found it, in the
    order of the pass. *)
Definition discovered (env : Env) (s : Server) : list (AudioPluginFormat * string) :=
  flat_map (fun fmt => map (pair fmt) (searchPathsForPlugins env fmt))
    (enabledFormats env s).

(** The display name [N] was observed among the enumerated plugins of an
    enabled format. *)
Definition observed (env : Env) (s : Server) (N : string) : Prop :=
  exists fmt fileOrId,
    fmt ∈ enabledFormats env s /\ fileOrId ∈ searchPathsForPlugins env fmt /\
    getNameOfPluginFromIdentifier env fmt fileOrId = N.

(** The command line of the isolated probe of one identifier. *)
Definition probeArgs (env : Env) (p : AudioPluginFormat * string) : list string :=
  [currentExecutableFile env; "-scan"; p.2 +:+ "|" +:+ getName p.1].

(** The probe condition in the words of the specification. *)
Definition probeRequired (env : Env) (s : Server) (include : list string)
    (fmt : AudioPluginFormat) (fileOrId : string) : Prop :=
  (getTypeForFile (m_pluginlist s) fileOrId = None \/
   exists d, getTypeForFile (m_pluginlist s) fileOrId = Some d /\
             pluginNeedsRescanning env fmt d = true) /\
  (fileOrId ∉ getBlacklistedFiles (m_pluginlist s)) /\
  shouldExclude s (getNameOfPluginFromIdentifier env fmt fileOrId) include = false.

(** The state in which the loops of [scanForPlugins] start: the catalog
    has been reloaded from its file. *)
Definition atLoopStart (st : State) : Server :=
  set_pluginlist (loadKnownPluginListInto (m_pluginlist st.1) (files st.2)) st.1.

(** What a stretch of the scan loops over the plugins [ps] does to the
    accumulator of never-seen names and the state: the names of [ps] leave
    the never-seen set, the server object is as it was, the config file is
    not written, no file is when no plugin of [ps] needed a probe, and the
    trace grows by scan events among which the probes launched are those
    of the plugins of [ps] that needed one, in order. *)
Definition passed (env : Env) (include : list string)
    (ps : list (AudioPluginFormat * string))
    (acc acc' : gset string * State) : Prop :=
  acc'.1 = acc.1 ∖ list_to_set (map (fun p => getNameOfPluginFromIdentifier env p.1 p.2) ps) /\
  acc'.2.1 = acc.2.1 /\
  SERVER_CONFIG_FILE (files acc'.2.2) = SERVER_CONFIG_FILE (files acc.2.2) /\
  (List.filter (fun p => needsProbe env acc.2.1 include p.1 p.2) ps = [] ->
   files acc'.2.2 = files acc.2.2) /\
  exists evs,
    trace acc'.2.2 = evs ++ trace acc.2.2 /\
    Forall isScanEvent evs /\
    launches evs =
      rev (map (probeArgs env)
             (List.filter (fun p => needsProbe env acc.2.1 include p.1 p.2) ps)).

(** ** A concrete installation *)

Module Demo.

Definition descOf (fmt : AudioPluginFormat) (id : string) : PluginDescription :=
  mkPluginDescription id id (getName fmt) id 1.

(** Two VST3 plugins, both valid: the scanner writes the identifier to the
    dead-man's file, loads the plugin in one second, adds its descriptor
    and takes the identifier out of the dead-man's file again. *)
Definition env (canListen : bool) : Env :=
  mkEnv false
    (fun fmt => match fmt with
                | VST3PluginFormat => ["/p/X.vst3"; "/p/Y.vst3"]
                | _ => []
                end)
    (fun _ id => id)
    (fun _ _ => false)
    (fun fmt id plist dm =>
       mkScanStep (Some (default [] dm ++ [id]))
         (ScanReturned (addType (descOf fmt id) plist) [] (Some (default [] dm)) 1000))
    "/bin/AudioGridderServer"
    (fun _ => true)
    (fun _ _ => canListen).

Definition server : Server :=
  mkServer 0 55056 "" false true false 90 false ∅ emptyList [].

Definition noFiles : Files := mkFiles None None None.

(** The previous run ended while X was being probed, before any probe
    had written a catalog. *)
Definition afterCrash : State :=
  (server, mkWorld (mkFiles None None (Some ["/p/X.vst3"])) []).

(** The exclusion set remembers a plugin that is gone and one that is
    installed. *)
Definition withExclusions : State :=
  (set_pluginexclude {[ "OldPlugin"; "/p/Y.vst3" ]} server, mkWorld noFiles []).

Definition client : StreamingSocket := mkStreamingSocket "10.0.0.7" 12.

End Demo.

(** ** Vocabulary of the further properties *)

(** The document [saveConfig] writes for a server object. *)
Definition configOf (s : Server) : json :=
  mkJson (Some (m_id s)) (Some (m_enableAU s)) (Some (m_enableVST s))
    (Some (m_enableVST2 s)) (Some (m_screenJpgQuality s))
    (Some (m_screenDiffDetection s)) (Some (elements (m_pluginexclude s))).

(** The config file and the catalog file hold what the object holds. *)
Definition persisted (st : State) : Prop :=
  SERVER_CONFIG_FILE (files st.2) = Some (configOf st.1) /\
  KNOWN_PLUGINS_FILE (files st.2) = Some (createXml (m_pluginlist st.1)).

(** The format [scanPlugin] selects for a format name, if any. *)
Definition formatNamed (env : Env) (format : string) : option AudioPluginFormat :=
  if compare format "VST" =? 0 then Some VSTPluginFormat
  else if compare format "VST3" =? 0 then Some VST3PluginFormat
  else if JUCE_MAC env && (compare format "AudioUnit" =? 0) then Some AudioUnitPluginFormat
  else None.

(** No descriptor of the list is a duplicate of an earlier one. *)
Fixpoint distinctPlugins (ts : list PluginDescription) : Prop :=
  match ts with
  | [] => True
  | d :: rest => Forall (fun e => isDuplicateOf d e = false) rest /\ distinctPlugins rest
  end.

(** The workers started, the connections accepted and the workers handed
    to the asynchronous clear that a trace shows, newest first. *)
Definition started (tr : list Event) : list Worker :=
  omap (fun e => match e with StartThread w => Some w | _ => None end) tr.

Definition accepted (tr : list Event) : list StreamingSocket :=
  omap (fun e => match e with Accept (Some c) => Some c | _ => None end) tr.

Definition cleared (tr : list Event) : list Worker :=
  flat_map (fun e => match e with CallAsyncClear ws => ws | _ => [] end) tr.

(** The events a running accept loop adds to the trace. *)
Definition isAcceptEvent (e : Event) : Prop :=
  match e with
  | Logln _ | Accept _ | StartThread _ | CallAsyncClear _ => True
  | _ => False
  end.

(** ** A second installation *)

Module Lab.

(** Three VST3 plugins: Good loads in one second, Bad is refused by the
    scanner, Slow never comes back. *)
Definition env : Env :=
  mkEnv false
    (fun fmt => match fmt with
                | VST3PluginFormat => ["/p/Good.vst3"; "/p/Bad.vst3"; "/p/Slow.vst3"]
                | _ => []
                end)
    (fun _ id => id)
    (fun _ _ => false)
    (fun fmt id plist dm =>
       mkScanStep (Some (default [] dm ++ [id]))
         (if String.eqb id "/p/Slow.vst3" then ScanHangs
          else if String.eqb id "/p/Bad.vst3"
               then ScanReturned plist [id] (Some (default [] dm)) 500
               else ScanReturned (addType (Demo.descOf fmt id) plist) []
                      (Some (default [] dm)) 1000))
    "/bin/AudioGridderServer"
    (fun _ => true)
    (fun _ _ => true).

Definition server : Server :=
  mkServer 2 55056 "" false true false 90 true {[ "Gone" ]} emptyList [].

Definition start : State := (server, mkWorld Demo.noFiles []).

(** All formats switched off. *)
Definition idle : State :=
  (set_enableVST false server, mkWorld Demo.noFiles []).

Definition alice : StreamingSocket := mkStreamingSocket "10.0.0.7" 12.
Definition bob : StreamingSocket := mkStreamingSocket "10.0.0.8" 13.

(** Alice connects, then Bob, by which time Alice's worker has ended;
    then the thread is told to exit and a third connection is never
    looked at. *)
Definition script : list Tick :=
  [mkTick false (Some alice) (fun _ => true);
   mkTick false None (fun _ => true);
   mkTick false (Some bob)
     (fun w => negb (getRawSocketHandle (clnt w) =? 12));
   mkTick true (Some alice) (fun _ => true)].

End Lab.

(** ** Strings *)

Lemma code_inj c1 c2 : code c1 = code c2 -> c1 = c2.
Proof.
  unfold code. intros H. apply N2Z.inj in H.
  rewrite <- (ascii_N_embedding c1), <- (ascii_N_embedding c2). by rewrite H.
Qed.

Lemma compareChar_0 a b : compareChar a b = 0 <-> a = b.
Proof.
  unfold compareChar. destruct (Z.eqb_spec (a - b) 0); [split; [lia|done]|].
  destruct (a - b <? 0); split; intros; try done; lia.
Qed.

Lemma compare_0 s1 s2 : compare s1 s2 = 0 <-> s1 = s2.
Proof.
  revert s2. induction s1 as [|c1 r1 IH]; intros [|c2 r2]; simpl; try done.
  destruct (Z.eqb_spec (compareChar (code c1) (code c2)) 0) as [E|E].
  - apply compareChar_0, code_inj in E. subst. rewrite IH. split; congruence.
  - split; [done|]. intros [= -> ->]. destruct E. by apply compareChar_0.
Qed.

Lemma contains_elem_of a s : contains a s = true <-> s ∈ a.
Proof.
  unfold contains. rewrite existsb_exists. split.
  - intros (x & Hx & E). apply Z.eqb_eq, compare_0 in E. subst.
    by apply list_elem_of_In.
  - intros H. exists s. split; [by apply list_elem_of_In|]. by apply Z.eqb_eq, compare_0.
Qed.

Lemma matches_elem_of (name : string) (l : list string) :
  existsb (fun x => compare name x =? 0) l = true <-> name ∈ l.
Proof.
  rewrite existsb_exists. split.
  - intros (x & Hx & E). apply Z.eqb_eq, compare_0 in E. subst.
    by apply list_elem_of_In.
  - intros H. exists name. split; [by apply list_elem_of_In|]. by apply Z.eqb_eq, compare_0.
Qed.

Lemma append_nil_l (s : string) : "" +:+ s = s.
Proof. reflexivity. Qed.

Lemma append_cons c (a b : string) : String c a +:+ b = String c (a +:+ b).
Proof. reflexivity. Qed.

(** [compareIgnoreCaseUpTo] over the needle's length tests for a prefix. *)
Lemma compareIgnoreCaseUpTo_prefix t : forall s,
  compareIgnoreCaseUpTo s t (String.length t) = 0 <->
  exists mid post, s = mid +:+ post /\ upper mid = upper t.
Proof.
  induction t as [|c2 r2 IH]; intros s; simpl.
  - split; [|done]. intros _. exists EmptyString, s. done.
  - destruct s as [|c1 r1].
    + split; [done|]. intros (mid & post & H1 & H2). by destruct mid.
    + destruct (Z.eqb_spec (compareChar (code (toUpperCase c1)) (code (toUpperCase c2))) 0)
        as [E|E].
      * apply compareChar_0, code_inj in E. rewrite IH. split.
        -- intros (mid & post & -> & H2). exists (String c1 mid), post.
           rewrite append_cons. simpl. by rewrite E, H2.
        -- intros (mid & post & H1 & H2). destruct mid as [|m mid]; [done|].
           rewrite append_cons in H1. injection H1 as -> ->. injection H2 as _ H2. eauto.
      * split; [done|]. intros (mid & post & H1 & H2). destruct mid as [|m mid]; [done|].
        rewrite append_cons in H1. injection H1 as -> ->. injection H2 as H2 _.
        destruct E. apply compareChar_0. by rewrite H2.
Qed.

Lemma indexOfIgnoreCaseFrom_found s t : forall i, 0 <= i ->
  (0 <= indexOfIgnoreCaseFrom s t i <->
   exists pre rest, s = pre +:+ rest /\
     compareIgnoreCaseUpTo rest t (String.length t) = 0).
Proof.
  induction s as [|c r IH]; intros i Hi; simpl.
  - destruct (Z.eqb_spec (compareIgnoreCaseUpTo "" t (String.length t)) 0) as [E|E].
    + split; [|lia]. intros _. exists EmptyString, EmptyString. done.
    + split; [lia|]. intros (pre & rest & H1 & H2). destruct pre as [|p pre]; [|done].
      rewrite append_nil_l in H1. by subst.
  - destruct (Z.eqb_spec (compareIgnoreCaseUpTo (String c r) t (String.length t)) 0) as [E|E].
    + split; [|lia]. intros _. exists EmptyString, (String c r). done.
    + rewrite IH by lia. split.
      * intros (pre & rest & -> & H2). exists (String c pre), rest. done.
      * intros (pre & rest & H1 & H2). destruct pre as [|p pre].
        -- rewrite append_nil_l in H1. by subst.
        -- rewrite append_cons in H1. injection H1 as -> ->. eauto.
Qed.

Lemma containsIgnoreCase_occurs s t :
  containsIgnoreCase s t = true <-> occursIgnoreCase s t.
Proof.
  unfold containsIgnoreCase, indexOfIgnoreCase, occursIgnoreCase.
  rewrite Z.leb_le. destruct t as [|c t].
  - split; [|lia]. intros _. exists EmptyString, EmptyString, s. done.
  - rewrite indexOfIgnoreCaseFrom_found by lia. split.
    + intros (pre & rest & -> & H).
      apply compareIgnoreCaseUpTo_prefix in H as (mid & post & -> & H). eauto.
    + intros (pre & mid & post & -> & H). exists pre, (mid +:+ post). split; [done|].
      apply compareIgnoreCaseUpTo_prefix. eauto.
Qed.

Lemma namesHost_guard name :
  containsIgnoreCase name "AGridder" || containsIgnoreCase name "AudioGridder" = true
  <-> namesHost name.
Proof.
  unfold namesHost. rewrite orb_true_iff, !containsIgnoreCase_occurs. done.
Qed.

(** ** The exclusion policy *)

(** C3, as amended.  For a name that carries none of the host's product
    identifiers and a non-empty include-list, [shouldExclude] answers false
    exactly when the name is an entry of the list, whatever the persisted
    exclusion set of the server holds. *)
Theorem include_list_precedence (s : Server) (N : string) (L : list string) :
  L <> [] -> ~ namesHost N ->
  (shouldExclude s N L = false <-> N ∈ L).
Proof.
  intros HL Hhost. unfold shouldExclude.
  destruct (containsIgnoreCase N "AGridder" || containsIgnoreCase N "AudioGridder") eqn:G.
  - destruct Hhost. by apply namesHost_guard.
  - destruct L as [|x L]; [done|].
    replace (0 <? Z.of_nat (List.length (x :: L))) with true
      by (symmetry; apply Z.ltb_lt; simpl; lia).
    rewrite negb_false_iff. apply matches_elem_of.
Qed.

Lemma include_list_precedence_witness :
  shouldExclude Demo.server "Reverb" ["Delay"; "Reverb"] = false <->
  "Reverb" ∈ ["Delay"; "Reverb"].
Proof.
  apply (include_list_precedence Demo.server "Reverb" ["Delay"; "Reverb"]).
  - discriminate.
  - intros H. apply namesHost_guard in H. vm_compute in H. discriminate H.
Defined.

(** C3 as the specification words it fails for a host name that is on the
    include-list: the name is an entry of the list and is excluded all the
    same. *)
Lemma include_list_precedence_counterexample :
  ~ (shouldExclude Demo.server "AudioGridder" ["AudioGridder"] = false <->
     "AudioGridder" ∈ ["AudioGridder"]).
Proof.
  intros [_ H]. specialize (H ltac:(apply list_elem_of_here)).
  vm_compute in H. discriminate H.
Qed.

(** C4.  A name in which "AGridder" or "AudioGridder" occurs, case
    ignored, is excluded under every include-list, also one that holds the
    name itself, and by the query without an include-list. *)
Theorem self_exclusion (s : Server) (N : string) (L : list string) :
  namesHost N ->
  shouldExclude s N L = true /\ shouldExclude s N (N :: L) = true /\
  shouldExclude1 s N = true.
Proof.
  intros H. apply namesHost_guard in H.
  unfold shouldExclude1, shouldExclude. by rewrite H.
Qed.

Lemma self_exclusion_witness :
  shouldExclude Demo.server "My audioGRIDDER fx" ["Reverb"] = true /\
  shouldExclude Demo.server "My audioGRIDDER fx" ["My audioGRIDDER fx"; "Reverb"] = true /\
  shouldExclude1 Demo.server "My audioGRIDDER fx" = true.
Proof.
  apply (self_exclusion Demo.server "My audioGRIDDER fx" ["Reverb"]).
  right. exists "My ", "audioGRIDDER", " fx". split; reflexivity.
Defined.

(** ** Startup recovery *)

Lemma readConfig_frame j st :
  m_pluginlist (readConfig j st).1 = m_pluginlist st.1 /\
  files (readConfig j st).2 = files st.2.
Proof.
  destruct j as [[?|] [?|] [?|] [?|] [?|] [?|] [?|]]; destruct st as [s w]; done.
Qed.

Lemma addToBlacklist_blacklist pluginID l X :
  X ∈ blacklist (addToBlacklist pluginID l) <-> X = pluginID \/ X ∈ blacklist l.
Proof.
  unfold addToBlacklist. destruct (contains (blacklist l) pluginID) eqn:E.
  - apply contains_elem_of in E. split; [by right|]. by intros [->|].
  - simpl. rewrite elem_of_app, list_elem_of_singleton. tauto.
Qed.

Lemma addToBlacklist_fold lines : forall l X,
  X ∈ blacklist (fold_left (fun l line => addToBlacklist line l) lines l) <->
  X ∈ lines \/ X ∈ blacklist l.
Proof.
  induction lines as [|y lines IH]; intros l X; simpl.
  - rewrite elem_of_nil. tauto.
  - rewrite IH, addToBlacklist_blacklist, elem_of_cons. tauto.
Qed.

Lemma drainDeadMansFile_catalog_file st :
  KNOWN_PLUGINS_FILE (files (drainDeadMansFile st).2) = KNOWN_PLUGINS_FILE (files st.2).
Proof.
  unfold drainDeadMansFile. by destruct (DEAD_MANS_FILE (files st.2)).
Qed.

(** [loadConfig] never writes the catalog file. *)
Lemma loadConfig_catalog_file st :
  KNOWN_PLUGINS_FILE (files (loadConfig st).2) = KNOWN_PLUGINS_FILE (files st.2).
Proof.
  unfold loadConfig. rewrite drainDeadMansFile_catalog_file.
  destruct (SERVER_CONFIG_FILE _); [|done].
  by destruct (readConfig_frame j (logln "starting server..." st)) as [_ ->].
Qed.

(** C1.  Every identifier the dead-man's file holds when the server starts
    is on the blacklist of the catalog once [loadConfig] has run, all of
    them together, and the dead-man's file is gone. *)
Theorem sentinel_recovery (st : State) (lines : list string) :
  DEAD_MANS_FILE (files st.2) = Some lines ->
  (forall X, X ∈ lines -> X ∈ getBlacklistedFiles (m_pluginlist (loadConfig st).1)) /\
  DEAD_MANS_FILE (files (loadConfig st).2) = None.
Proof.
  intros Hdm. unfold loadConfig.
  set (st1 := match SERVER_CONFIG_FILE (files (logln "starting server..." st).2) with
              | Some j => readConfig j (logln "starting server..." st)
              | None => logln "starting server..." st
              end).
  assert (Hf : files st1.2 = files st.2).
  { unfold st1. destruct (SERVER_CONFIG_FILE _); [|done].
    by destruct (readConfig_frame j (logln "starting server..." st)) as [_ ->]. }
  unfold drainDeadMansFile. rewrite Hf, Hdm. split; [|done].
  intros X HX. unfold getBlacklistedFiles. simpl.
  apply addToBlacklist_fold. by left.
Qed.

Lemma sentinel_recovery_witness :
  (forall X, X ∈ ["/p/X.vst3"] ->
     X ∈ getBlacklistedFiles (m_pluginlist (loadConfig Demo.afterCrash).1)) /\
  DEAD_MANS_FILE (files (loadConfig Demo.afterCrash).2) = None.
Proof.
  apply (sentinel_recovery Demo.afterCrash ["/p/X.vst3"]). reflexivity.
Defined.

(** C2, the code at the failing input.  The server starts after a crash
    with "/p/X.vst3" in the dead-man's file and no catalog file.
    [loadConfig] blacklists the identifier in memory and writes the config
    file, which has no field for the blacklist; it writes no catalog file,
    so a process that loads the catalog afterwards finds no blacklist. *)
Theorem drain_leaves_catalog_unsaved :
  let st := loadConfig Demo.afterCrash in
  getBlacklistedFiles (m_pluginlist st.1) = ["/p/X.vst3"] /\
  SERVER_CONFIG_FILE (files st.2) =
    Some (mkJson (Some 0) (Some false) (Some true) (Some false) (Some 90) (Some false)
            (Some [])) /\
  KNOWN_PLUGINS_FILE (files st.2) = None /\
  DEAD_MANS_FILE (files st.2) = None /\
  getBlacklistedFiles (loadKnownPluginListInto emptyList (files st.2)) = [].
Proof. vm_compute. done. Qed.

(** ** The scan pass *)

Section Scan.

Variable env : Env.

Lemma launches_app a b : launches (a ++ b) = launches a ++ launches b.
Proof. unfold launches. apply omap_app. Qed.

Lemma callbacks_app a b : callbacks (a ++ b) = callbacks a ++ callbacks b.
Proof. unfold callbacks. apply omap_app. Qed.

Lemma connections_app a b : connections (a ++ b) = connections a ++ connections b.
Proof. unfold connections. apply List.filter_app. Qed.

Lemma scan_events_callbacks evs : Forall isScanEvent evs -> callbacks evs = [].
Proof.
  induction 1 as [|e evs He _ IH]; [done|].
  destruct e; try done; exact IH.
Qed.

Lemma scan_events_connections evs : Forall isScanEvent evs -> connections evs = [].
Proof.
  induction 1 as [|e evs He _ IH]; [done|].
  destruct e; try done; exact IH.
Qed.

Lemma scanPlugin_config id fmt f :
  SERVER_CONFIG_FILE (whileRunning (scanPlugin env id fmt f)) = SERVER_CONFIG_FILE f /\
  SERVER_CONFIG_FILE (filesAtExit (scanPlugin env id fmt f)) = SERVER_CONFIG_FILE f.
Proof.
  unfold scanPlugin, filesAtExit.
  destruct (if compare fmt "VST" =? 0 then _ else _); [|done].
  simpl. by destruct (scanEnding _).
Qed.

Lemma scanProcess_config id fmt f :
  SERVER_CONFIG_FILE (whileRunning (scanProcess env id fmt f)) = SERVER_CONFIG_FILE f /\
  SERVER_CONFIG_FILE (filesAtExit (scanProcess env id fmt f)) = SERVER_CONFIG_FILE f.
Proof.
  destruct (scanPlugin_config id fmt f) as [H1 H2]. unfold scanProcess, filesAtExit in *.
  simpl. split; [done|]. by destruct (ending (scanPlugin env id fmt f)).
Qed.

Lemma scanNextPlugin_server id fmt st : (scanNextPlugin env id fmt st).1 = st.1.
Proof.
  unfold scanNextPlugin. destruct (procStart env _); [|done].
  destruct (isRunningAfter _ _); [done|]. by destruct (negb _).
Qed.

Lemma scanNextPlugin_config id fmt st :
  SERVER_CONFIG_FILE (files (scanNextPlugin env id fmt st).2) = SERVER_CONFIG_FILE (files st.2).
Proof.
  destruct (scanProcess_config id fmt (files st.2)) as [H1 H2].
  unfold scanNextPlugin. destruct (procStart env _); [|done].
  destruct (isRunningAfter _ _); [done|]. by destruct (negb _).
Qed.

Lemma scanNextPlugin_trace id fmt st :
  exists evs,
    trace (scanNextPlugin env id fmt st).2 = evs ++ trace st.2 /\
    Forall isScanEvent evs /\
    launches evs = [[currentExecutableFile env; "-scan"; id +:+ "|" +:+ fmt]].
Proof.
  unfold scanNextPlugin. destruct (procStart env _).
  - destruct (isRunningAfter _ _); [|destruct (negb _)]; simpl.
    + eexists [_; _; _; _]. split; [done|]. split; [|done]. by repeat constructor.
    + eexists [_; _; _]. split; [done|]. split; [|done]. by repeat constructor.
    + eexists [_; _]. split; [done|]. split; [|done]. by repeat constructor.
  - eexists [_; _]. split; [done|]. split; [|done]. by repeat constructor.
Qed.

Lemma passed_nil include acc : passed env include [] acc acc.
Proof.
  unfold passed. simpl. split; [by rewrite difference_empty_L|]. do 3 (split; [done|]).
  exists []. by repeat split.
Qed.

Lemma passed_app include ps qs a b c :
  passed env include ps a b -> passed env include qs b c ->
  passed env include (ps ++ qs) a c.
Proof.
  intros (N1 & S1 & C1 & U1 & e1 & T1 & F1 & L1) (N2 & S2 & C2 & U2 & e2 & T2 & F2 & L2).
  unfold passed. rewrite map_app, list_to_set_app_L.
  split; [by rewrite N2, N1, difference_difference_l_L|].
  split; [congruence|]. split; [congruence|].
  split.
  { rewrite List.filter_app. intros H. apply app_eq_nil in H as [Hp Hq].
    rewrite S1 in U2. by rewrite U2, U1. }
  exists (e2 ++ e1). split; [by rewrite T2, T1, app_assoc|].
  split; [by apply Forall_app|].
  rewrite launches_app, L1, L2, S1, List.filter_app, map_app, rev_app_distr. done.
Qed.

Lemma passed_scanOne include fmt acc fileOrId :
  passed env include [(fmt, fileOrId)] acc (scanOne env include fmt acc fileOrId).
Proof.
  unfold passed, scanOne. simpl. split; [by rewrite union_empty_r_L|].
  destruct (needsProbe env acc.2.1 include fmt fileOrId) eqn:E.
  - rewrite scanNextPlugin_server, scanNextPlugin_config. do 3 (split; [done|]).
    destruct (scanNextPlugin_trace fileOrId (getName fmt)
                (emit (SetSplashInfo ("Scanning plugin " +:+
                         getNameOfPluginFromIdentifier env fmt fileOrId +:+ "..."))
                   (logln ("  scanning: " +:+ getNameOfPluginFromIdentifier env fmt fileOrId)
                      acc.2))) as (evs & T & F & L).
    exists (evs ++ [SetSplashInfo ("Scanning plugin " +:+
                         getNameOfPluginFromIdentifier env fmt fileOrId +:+ "...");
                    Logln ("  scanning: " +:+ getNameOfPluginFromIdentifier env fmt fileOrId)]).
    split; [by rewrite T, <- app_assoc|].
    split; [apply Forall_app; split; [done|by repeat constructor]|].
    rewrite launches_app, L. done.
  - do 3 (split; [done|]). eexists [_]. split; [done|]. split; [|done]. by repeat constructor.
Qed.

Lemma passed_scanFormat include fmt : forall ids acc,
  passed env include (map (pair fmt) ids) acc
    (fold_left (scanOne env include fmt) ids acc).
Proof.
  induction ids as [|id ids IH]; intros acc; simpl.
  - apply passed_nil.
  - apply (passed_app include [(fmt, id)] _ _ (scanOne env include fmt acc id)).
    + apply passed_scanOne.
    + apply IH.
Qed.

Lemma passed_formats include : forall fmts acc,
  passed env include
    (flat_map (fun fmt => map (pair fmt) (searchPathsForPlugins env fmt)) fmts) acc
    (fold_left (scanFormat env include) fmts acc).
Proof.
  induction fmts as [|fmt fmts IH]; intros acc; simpl.
  - apply passed_nil.
  - eapply passed_app; [apply passed_scanFormat|apply IH].
Qed.


Lemma erase_fold (l : list string) : forall X : gset string,
  fold_left (fun ex name => ex ∖ {[name]}) l X = X ∖ list_to_set l.
Proof.
  induction l as [|x l IH]; intros X; simpl.
  - by rewrite difference_empty_L.
  - by rewrite IH, difference_difference_l_L.
Qed.

Lemma discovered_names s N :
  N ∈ map (fun p => getNameOfPluginFromIdentifier env p.1 p.2) (discovered env s)
  <-> observed env s N.
Proof.
  unfold observed, discovered. rewrite list_elem_of_In, in_map_iff. split.
  - intros ([fmt id] & <- & H). apply in_flat_map in H as (fmt' & Hf & H).
    apply in_map_iff in H as (id' & [= <- <-] & Hid).
    exists fmt', id'. by rewrite !list_elem_of_In.
  - intros (fmt & id & Hf & Hid & <-). exists (fmt, id). split; [done|].
    apply in_flat_map. exists fmt. split; [by apply list_elem_of_In|].
    apply in_map_iff. exists id. split; [done|]. by apply list_elem_of_In.
Qed.

(** What a whole pass does. *)
Lemma scanForPlugins_spec include st :
  let st' := scanForPlugins env include st in
  let X := m_pluginexclude st.1 in
  let O : gset string :=
    list_to_set (map (fun p => getNameOfPluginFromIdentifier env p.1 p.2)
                   (discovered env st.1)) in
  let probed :=
    List.filter (fun p => needsProbe env (atLoopStart st) include p.1 p.2)
      (discovered env st.1) in
  st'.1 = set_pluginexclude (X ∖ (X ∖ O))
            (set_pluginlist
               (sort (loadKnownPluginListInto (m_pluginlist (atLoopStart st)) (files st'.2)))
               st.1) /\
  SERVER_CONFIG_FILE (files st'.2) = SERVER_CONFIG_FILE (files st.2) /\
  (probed = [] -> files st'.2 = files st.2) /\
  exists evs,
    trace st'.2 = evs ++ trace st.2 /\
    Forall isScanEvent evs /\
    rev (launches evs) = map (probeArgs env) probed.
Proof.
  intros st' X O probed.
  pose proof (passed_formats include (enabledFormats env st.1)
                (m_pluginexclude st.1,
                 loadKnownPluginList (logln "scanning for plugins..." st)))
    as (N1 & S1 & C1 & U1 & evs & T & F & L).
  fold (discovered env st.1) in N1, U1, L.
  unfold st', scanForPlugins.
  change (enabledFormats env (logln "scanning for plugins..." st).1)
    with (enabledFormats env st.1).
  change (m_pluginexclude (logln "scanning for plugins..." st).1)
    with (m_pluginexclude st.1).
  set (acc := fold_left (scanFormat env include) (enabledFormats env st.1) _) in *.
  simpl in N1, S1, C1, U1, T, L. simpl.
  split; [|split; [|split]].
  - rewrite erase_fold, list_to_set_elements_L, N1, S1.
    destruct st as [s w]. done.
  - exact C1.
  - intros H. apply U1. destruct st as [s w]. exact H.
  - exists (Logln "scan for plugins finished." :: evs ++ [Logln "scanning for plugins..."]).
    split; [rewrite T; simpl; by rewrite <- app_assoc|].
    split; [constructor; [done|]; apply Forall_app; split; [done|by repeat constructor]|].
    change (launches (Logln "scan for plugins finished." :: evs ++ [Logln "scanning for plugins..."]))
      with (launches (evs ++ [Logln "scanning for plugins..."])).
    rewrite launches_app, L. simpl. rewrite app_nil_r, rev_involutive.
    destruct st as [s w]. done.
Qed.

Lemma scanForPlugins_pluginlist include st :
  m_pluginlist (scanForPlugins env include st).1 =
  sort (loadKnownPluginListInto
          (loadKnownPluginListInto (m_pluginlist st.1) (files st.2))
          (files (scanForPlugins env include st).2)).
Proof.
  destruct (scanForPlugins_spec include st) as (H & _). by rewrite H.
Qed.

(** X17.  A second pass that has nothing to probe, when a catalog file
    exists, reloads the file the first pass read last and sorts it to the
    same list: the catalog, blacklist included, is the one the first pass
    left. *)
Lemma rescan_without_probes include st :
  let st1 := scanForPlugins env include st in
  let st2 := scanForPlugins env include st1 in
  KNOWN_PLUGINS_FILE (files st1.2) <> None ->
  List.filter (fun p => needsProbe env (atLoopStart st1) include p.1 p.2)
    (discovered env st1.1) = [] ->
  m_pluginlist st2.1 = m_pluginlist st1.1.
Proof.
  intros st1 st2 Hfile Hnone.
  destruct (scanForPlugins_spec include st1) as (_ & _ & U2 & _).
  specialize (U2 Hnone).
  pose proof (scanForPlugins_pluginlist include st) as H1. fold st1 in H1.
  unfold st2. rewrite (scanForPlugins_pluginlist include st1), U2.
  unfold loadKnownPluginListInto in *.
  destruct (KNOWN_PLUGINS_FILE (files st1.2)) as [xml|]; [|by destruct Hfile].
  symmetry. exact H1.
Qed.

Lemma needsProbe_required s include fmt fileOrId :
  needsProbe env s include fmt fileOrId = true <->
  probeRequired env s include fmt fileOrId.
Proof.
  unfold needsProbe, probeRequired.
  rewrite !andb_true_iff, !negb_true_iff.
  rewrite <- (not_true_iff_false (contains _ _)), contains_elem_of.
  destruct (getTypeForFile (m_pluginlist s) fileOrId) as [d|]; split.
  - intros [[H1 H2] H3]. split; [right; eauto|done].
  - intros ([[=]|(d' & [= <-] & H1)] & H2 & H3). done.
  - intros [[_ H2] H3]. split; [by left|done].
  - intros (_ & H2 & H3). done.
Qed.

(** C5.  During a pass the probes launched are, in order, exactly those of
    the enumerated plugins for which the condition of the loop holds in the
    state the loops start in; and that condition holds if and only if no
    descriptor exists for the identifier or the format reports that the one
    found needs rescanning, the identifier is not on the blacklist, and
    [shouldExclude] does not exclude the display name under the supplied
    include-list. *)
Theorem probe_condition (include : list string) (st : State) :
  let s := atLoopStart st in
  (exists evs,
     trace (scanForPlugins env include st).2 = evs ++ trace st.2 /\
     rev (launches evs) =
       map (probeArgs env)
         (List.filter (fun p => needsProbe env s include p.1 p.2) (discovered env st.1))) /\
  (forall fmt fileOrId,
     needsProbe env s include fmt fileOrId = true <->
     probeRequired env s include fmt fileOrId).
Proof.
  intros s. split.
  - destruct (scanForPlugins_spec include st) as (_ & _ & _ & evs & T & _ & L). eauto.
  - intros fmt fileOrId. apply needsProbe_required.
Qed.

(** C6.  After a whole pass a name of the exclusion set that was not the
    display name of any enumerated plugin of an enabled format is absent
    from the exclusion set, and one that was observed is still in it. *)
Theorem stale_exclusion_pruning (include : list string) (st : State) (N : string) :
  N ∈ m_pluginexclude st.1 ->
  (~ observed env st.1 N -> N ∉ m_pluginexclude (scanForPlugins env include st).1) /\
  (observed env st.1 N -> N ∈ m_pluginexclude (scanForPlugins env include st).1).
Proof.
  intros HN. destruct (scanForPlugins_spec include st) as (-> & _).
  simpl. rewrite !elem_of_difference, elem_of_list_to_set, discovered_names.
  split.
  - intros Hno [_ H]. apply H. done.
  - intros Hobs. split; [done|]. intros [_ H]. done.
Qed.

(** C7.  [scanNextPlugin] leaves the server object as it found it, so the
    catalog, the blacklist and the exclusion set of the parent are
    unchanged whether the child cannot be started, times out or exits with
    any code.  What it does with the process is, in this order and nothing
    more: one attempt to start it; if that fails, nothing else; if it
    succeeds, one wait with the timeout of 30000 milliseconds, followed by
    one kill exactly when the child is still running after that time.  The
    waits of the call add up to 30000 milliseconds when the child starts
    and to none otherwise, never to more. *)
Theorem scanNextPlugin_frame (id fmt : string) (st : State) :
  let st' := scanNextPlugin env id fmt st in
  let args := [currentExecutableFile env; "-scan"; id +:+ "|" +:+ fmt] in
  let started := procStart env args in
  let timedOut := isRunningAfter 30000 (scanProcess env id fmt (files st.2)) in
  st'.1 = st.1 /\
  exists evs,
    trace st'.2 = evs ++ trace st.2 /\
    rev (processEvents evs) =
      (if started
       then ProcStart args true :: ProcWait 30000 :: (if timedOut then [ProcKill] else [])
       else [ProcStart args false]) /\
    waited evs = (if started then 30000 else 0) /\
    waited evs <= 30000 /\
    (started = true -> ProcWait 30000 ∈ evs) /\
    (forall ms, ProcWait ms ∈ evs -> ms = 30000) /\
    (ProcKill ∈ evs <-> started = true /\ timedOut = true).
Proof.
  intros st' args started timedOut. split; [apply scanNextPlugin_server|].
  unfold st', scanNextPlugin. cbv zeta.
  change (files (emit (ProcStart [currentExecutableFile env; "-scan"; id +:+ "|" +:+ fmt] true) st).2)
    with (files st.2).
  fold args. fold started. fold timedOut.
  destruct started, timedOut; [| destruct (negb _) | |]; simpl.
  - exists [ProcKill; Logln "error: scan timeout, killing scan process"; ProcWait 30000;
            ProcStart args true].
    split; [done|]. split; [done|]. split; [done|]. split; [done|].
    setoid_rewrite elem_of_cons. setoid_rewrite elem_of_cons.
    setoid_rewrite elem_of_cons. setoid_rewrite elem_of_cons. setoid_rewrite elem_of_nil.
    intuition congruence.
  - eexists [Logln _; ProcWait 30000; ProcStart args true].
    split; [done|]. split; [done|]. split; [done|]. split; [done|].
    setoid_rewrite elem_of_cons. setoid_rewrite elem_of_cons.
    setoid_rewrite elem_of_cons. setoid_rewrite elem_of_nil.
    intuition congruence.
  - exists [ProcWait 30000; ProcStart args true].
    split; [done|]. split; [done|]. split; [done|]. split; [done|].
    setoid_rewrite elem_of_cons. setoid_rewrite elem_of_cons.
    setoid_rewrite elem_of_nil.
    intuition congruence.
  - eexists [Logln _; ProcStart args false].
    split; [done|]. split; [done|]. split; [done|]. split; [done|].
    setoid_rewrite elem_of_cons. setoid_rewrite elem_of_cons.
    setoid_rewrite elem_of_nil.
    intuition congruence.
  - eexists [Logln _; ProcStart args false].
    split; [done|]. split; [done|]. split; [done|]. split; [done|].
    setoid_rewrite elem_of_cons. setoid_rewrite elem_of_cons.
    setoid_rewrite elem_of_nil.
    intuition congruence.
Qed.

Lemma reportFound_spec names : forall st,
  reportFound names st =
  emit (Callback (forallb (fun name =>
                    existsb (fun p => compare name (descriptiveName p) =? 0)
                      (getTypes (m_pluginlist st.1))) names)) st.
Proof.
  induction names as [|name names IH]; intros st; simpl; [done|].
  destruct (existsb _ _); simpl; [apply IH|done].
Qed.

Lemma scanForPlugins_callbacks include st :
  callbacks (trace (scanForPlugins env include st).2) = callbacks (trace st.2).
Proof.
  destruct (scanForPlugins_spec include st) as (_ & _ & _ & evs & -> & F & _).
  by rewrite callbacks_app, scan_events_callbacks.
Qed.

Lemma scanForPlugins_connections include st :
  connections (trace (scanForPlugins env include st).2) = connections (trace st.2).
Proof.
  destruct (scanForPlugins_spec include st) as (_ & _ & _ & evs & -> & F & _).
  by rewrite connections_app, scan_events_connections.
Qed.

(** C10.  With a non-null callback [addPlugins] calls the callback once,
    as its last action after the scan and the two saves, and the argument
    is true if and only if every requested name is the descriptive name of
    some descriptor of the catalog as the scan left it. *)
Theorem addPlugins_callback (names : list string) (st : State) :
  let scanned := saveKnownPluginList (saveConfig (scanForPlugins env names st)) in
  let st' := addPlugins env names true st in
  exists b,
    trace st'.2 = Callback b :: trace scanned.2 /\
    callbacks (trace st'.2) = b :: callbacks (trace st.2) /\
    (b = true <->
     forall name, name ∈ names ->
       exists p, p ∈ getTypes (m_pluginlist scanned.1) /\ name = descriptiveName p).
Proof.
  intros scanned st'. unfold st', addPlugins. fold scanned.
  rewrite reportFound_spec. eexists. split; [reflexivity|]. split.
  - rewrite <- (scanForPlugins_callbacks names st). reflexivity.
  - rewrite forallb_forall. split.
    + intros H name Hn. apply list_elem_of_In, H, existsb_exists in Hn as (p & Hp & E).
      exists p. split; [by apply list_elem_of_In|]. by apply Z.eqb_eq, compare_0 in E.
    + intros H name Hn. apply list_elem_of_In, H in Hn as (p & Hp & ->).
      apply existsb_exists. exists p. split; [by apply list_elem_of_In|].
      by apply Z.eqb_eq, compare_0.
Qed.

(** C9.  When the listener cannot be created on [m_port + m_id], [run]
    accepts no connection and starts no worker, whatever connections are
    waiting, the worker registry is as it was, and the last thing the
    server does is log the failure. *)
Theorem bind_failure_no_accept (script : list Tick) (st : State) :
  createListener env (m_port st.1 + m_id st.1) (m_host st.1) = false ->
  let st' := run env script st in
  connections (trace st'.2) = connections (trace st.2) /\
  m_workers st'.1 = m_workers st.1 /\
  exists evs, trace st'.2 =
    Logln "failed to create listener"
    :: CreateListener (m_port st.1 + m_id st.1) (m_host st.1) false :: evs.
Proof.
  intros Hbind st'. unfold st', run, scanForPlugins0.
  destruct (scanForPlugins_spec [] st) as (Hs & _ & _).
  pose proof (scanForPlugins_connections [] st) as Hc.
  set (sc := scanForPlugins env [] st) in *.
  assert (Hid : m_id sc.1 = m_id st.1) by by rewrite Hs.
  assert (Hport : m_port sc.1 = m_port st.1) by by rewrite Hs.
  assert (Hhost : m_host sc.1 = m_host st.1) by by rewrite Hs.
  assert (Hw : m_workers sc.1 = m_workers st.1) by by rewrite Hs.
  set (st4 := if JUCE_MAC env then _ else _).
  assert (H4 : st4.1 = sc.1 /\ connections (trace st4.2) = connections (trace sc.2)).
  { unfold st4. by destruct (JUCE_MAC env). }
  destruct H4 as [H41 H42].
  rewrite H41, Hid, Hport, Hhost, Hbind. simpl.
  rewrite H42, Hc, H41, Hw. repeat split. eauto.
Qed.

End Scan.

(** ** The concrete installation at work *)

Lemma stale_exclusion_pruning_witness :
  (~ observed (Demo.env true) Demo.withExclusions.1 "OldPlugin" ->
   "OldPlugin" ∉ m_pluginexclude (scanForPlugins (Demo.env true) [] Demo.withExclusions).1) /\
  (observed (Demo.env true) Demo.withExclusions.1 "OldPlugin" ->
   "OldPlugin" ∈ m_pluginexclude (scanForPlugins (Demo.env true) [] Demo.withExclusions).1).
Proof.
  apply (stale_exclusion_pruning (Demo.env true) [] Demo.withExclusions "OldPlugin").
  vm_compute. reflexivity.
Defined.

(** The plugin that is gone leaves the exclusion set, the installed one
    stays, and the excluded plugin is not probed. *)
Example exclusions_after_scan :
  let st := scanForPlugins (Demo.env true) [] Demo.withExclusions in
  elements (m_pluginexclude st.1) = ["/p/Y.vst3"] /\
  rev (launches (trace st.2)) = [["/bin/AudioGridderServer"; "-scan"; "/p/X.vst3|VST3"]] /\
  map fileOrIdentifier (getTypes (m_pluginlist st.1)) = ["/p/X.vst3"].
Proof. vm_compute. done. Qed.

Lemma bind_failure_no_accept_witness :
  let script := [mkTick false (Some Demo.client) (fun _ => true)] in
  let st := (Demo.server, mkWorld Demo.noFiles []) in
  let st' := run (Demo.env false) script st in
  connections (trace st'.2) = connections (trace st.2) /\
  m_workers st'.1 = m_workers st.1 /\
  exists evs, trace st'.2 =
    Logln "failed to create listener"
    :: CreateListener (m_port st.1 + m_id st.1) (m_host st.1) false :: evs.
Proof.
  apply (bind_failure_no_accept (Demo.env false)
           [mkTick false (Some Demo.client) (fun _ => true)]
           (Demo.server, mkWorld Demo.noFiles [])).
  reflexivity.
Defined.

(** With a listener the same waiting client is accepted and gets a worker. *)
Example listener_accepts :
  let script := [mkTick false (Some Demo.client) (fun _ => true)] in
  let st' := run (Demo.env true) script (Demo.server, mkWorld Demo.noFiles []) in
  connections (trace st'.2) =
    [StartThread (mkWorker Demo.client); Accept (Some Demo.client)] /\
  m_workers st'.1 = [mkWorker Demo.client].
Proof. vm_compute. done. Qed.

(** From a clean start two passes in a row leave the same sorted catalog. *)
Example rescan_clean_start :
  let st1 := scanForPlugins (Demo.env true) [] (Demo.server, mkWorld Demo.noFiles []) in
  let st2 := scanForPlugins (Demo.env true) [] st1 in
  map fileOrIdentifier (getTypes (m_pluginlist st1.1)) = ["/p/X.vst3"; "/p/Y.vst3"] /\
  m_pluginlist st2.1 = m_pluginlist st1.1.
Proof. vm_compute. done. Qed.

(** C8, the code at the failing input.  The server starts after a crash
    with "/p/X.vst3" in the dead-man's file and no catalog file; X and Y
    are installed and both load.  The first pass skips X, which
    [loadConfig] blacklisted in memory, probes Y, and on reloading the
    catalog file the probe of Y wrote loses the blacklist entry.  The
    second pass, with the files as the first left them and no crash in
    either, probes X: the sorted catalog holds Y after the first pass and
    X and Y after the second. *)
Theorem rescan_after_recovery_differs :
  let st0 := loadConfig Demo.afterCrash in
  let st1 := scanForPlugins (Demo.env true) [] st0 in
  let st2 := scanForPlugins (Demo.env true) [] st1 in
  getBlacklistedFiles (m_pluginlist st0.1) = ["/p/X.vst3"] /\
  rev (launches (trace st1.2)) = [["/bin/AudioGridderServer"; "-scan"; "/p/Y.vst3|VST3"]] /\
  map fileOrIdentifier (getTypes (m_pluginlist st1.1)) = ["/p/Y.vst3"] /\
  getBlacklistedFiles (m_pluginlist st1.1) = [] /\
  map fileOrIdentifier (getTypes (m_pluginlist st2.1)) = ["/p/X.vst3"; "/p/Y.vst3"] /\
  m_pluginlist st2.1 <> m_pluginlist st1.1.
Proof. vm_compute. repeat split; try done. Qed.

(** ** The exclusion policy without an include-list *)

(** X1.  Without an include-list a name is excluded exactly when it
    carries a product identifier of the host or is in the persisted
    exclusion set. *)
Theorem shouldExclude_without_include (s : Server) (N : string) :
  shouldExclude1 s N = true <-> namesHost N \/ N ∈ m_pluginexclude s.
Proof.
  unfold shouldExclude1, shouldExclude. rewrite <- namesHost_guard.
  destruct (containsIgnoreCase N "AGridder" || containsIgnoreCase N "AudioGridder").
  - split; [by left|done].
  - simpl. rewrite matches_elem_of, elem_of_elements. split; [by right|].
    by intros [|].
Qed.

(** ** The config file *)

Lemma insert_fold (l : list string) : forall X : gset string,
  fold_left (fun ex x => {[x]} ∪ ex) l X = list_to_set l ∪ X.
Proof.
  induction l as [|x l IH]; intros X; simpl.
  - by rewrite union_empty_l_L.
  - rewrite IH. rewrite (union_comm_L {[x]} (list_to_set l)), <- union_assoc_L. done.
Qed.

Lemma readConfig_configOf s s0 w :
  (readConfig (configOf s) (s0, w)).1 =
  mkServer (m_id s) (m_port s0) (m_host s0) (m_enableAU s) (m_enableVST s) (m_enableVST2 s)
    (m_screenJpgQuality s) (m_screenDiffDetection s)
    (m_pluginexclude s ∪ m_pluginexclude s0) (m_pluginlist s0) (m_workers s0).
Proof.
  unfold readConfig, configOf. simpl. unfold set_pluginexclude. simpl.
  by rewrite insert_fold, list_to_set_elements_L.
Qed.

Lemma drainDeadMansFile_config_fields st :
  let s := st.1 in
  let s' := (drainDeadMansFile st).1 in
  m_id s' = m_id s /\ m_port s' = m_port s /\ m_host s' = m_host s /\
  m_enableAU s' = m_enableAU s /\ m_enableVST s' = m_enableVST s /\
  m_enableVST2 s' = m_enableVST2 s /\ m_screenJpgQuality s' = m_screenJpgQuality s /\
  m_screenDiffDetection s' = m_screenDiffDetection s /\
  m_pluginexclude s' = m_pluginexclude s /\ m_workers s' = m_workers s.
Proof.
  unfold drainDeadMansFile. destruct (DEAD_MANS_FILE (files st.2)); by repeat split.
Qed.

(** X2.  What [saveConfig] writes, [loadConfig] reads back: the id, the
    three format switches and the two screen settings are those of the
    saving object.  The saved exclusion names are added to the names the
    loading object already holds (the set is not cleared first); port and
    host are not in the file and stay as they are. *)
Theorem config_round_trip (st : State) (s0 : Server) (tr : list Event) :
  let st' := loadConfig (s0, mkWorld (files (saveConfig st).2) tr) in
  m_id st'.1 = m_id st.1 /\
  m_enableAU st'.1 = m_enableAU st.1 /\
  m_enableVST st'.1 = m_enableVST st.1 /\
  m_enableVST2 st'.1 = m_enableVST2 st.1 /\
  m_screenJpgQuality st'.1 = m_screenJpgQuality st.1 /\
  m_screenDiffDetection st'.1 = m_screenDiffDetection st.1 /\
  m_pluginexclude st'.1 = m_pluginexclude st.1 ∪ m_pluginexclude s0 /\
  m_port st'.1 = m_port s0 /\ m_host st'.1 = m_host s0.
Proof.
  intros st'. unfold st', loadConfig.
  change (SERVER_CONFIG_FILE (files (logln "starting server..."
            (s0, mkWorld (files (saveConfig st).2) tr)).2))
    with (Some (configOf st.1)).
  cbv beta iota.
  set (w := (logln "starting server..." (s0, mkWorld (files (saveConfig st).2) tr)).2).
  change (logln "starting server..." (s0, mkWorld (files (saveConfig st).2) tr))
    with (s0, w).
  destruct (drainDeadMansFile_config_fields (readConfig (configOf st.1) (s0, w)))
    as (-> & -> & -> & -> & -> & -> & -> & -> & -> & _).
  rewrite readConfig_configOf. by repeat split.
Qed.

Lemma insert_fold_subseteq (l : list string) (X : gset string) :
  X ⊆ fold_left (fun ex x => {[x]} ∪ ex) l X.
Proof. rewrite insert_fold. apply union_subseteq_r. Qed.

Lemma readConfig_keeps j st :
  let s := st.1 in
  let s' := (readConfig j st).1 in
  m_port s' = m_port s /\ m_host s' = m_host s /\ m_workers s' = m_workers s /\
  m_pluginexclude s ⊆ m_pluginexclude s'.
Proof.
  destruct st as [s w].
  destruct j as [[?|] [?|] [?|] [?|] [?|] [?|] [l|]]; simpl;
    repeat split; try done; apply insert_fold_subseteq.
Qed.

(** X3.  [loadConfig] only adds: the exclusion set and the blacklist keep
    every entry they had, the descriptors, the port, the host and the
    worker registry are untouched. *)
Theorem loadConfig_only_adds (st : State) :
  let s := st.1 in
  let s' := (loadConfig st).1 in
  m_pluginexclude s ⊆ m_pluginexclude s' /\
  (forall X, X ∈ getBlacklistedFiles (m_pluginlist s) ->
             X ∈ getBlacklistedFiles (m_pluginlist s')) /\
  getTypes (m_pluginlist s') = getTypes (m_pluginlist s) /\
  m_port s' = m_port s /\ m_host s' = m_host s /\ m_workers s' = m_workers s.
Proof.
  intros s s'. unfold s', loadConfig.
  set (st0 := logln "starting server..." st).
  set (st1 := match SERVER_CONFIG_FILE (files st0.2) with
              | Some j => readConfig j st0
              | None => st0
              end).
  assert (H1 : m_port st1.1 = m_port s /\ m_host st1.1 = m_host s /\
               m_workers st1.1 = m_workers s /\
               m_pluginexclude s ⊆ m_pluginexclude st1.1 /\
               m_pluginlist st1.1 = m_pluginlist s).
  { unfold st1. destruct (SERVER_CONFIG_FILE (files st0.2)) as [j|]; [|done].
    destruct (readConfig_keeps j st0) as (? & ? & ? & ?).
    destruct (readConfig_frame j st0) as [? _]. done. }
  destruct H1 as (Hp & Hh & Hw & He & Hl).
  destruct (drainDeadMansFile_config_fields st1)
    as (_ & -> & -> & _ & _ & _ & _ & _ & -> & ->).
  split; [done|]. split; [|split; [|done]].
  - intros X HX. unfold drainDeadMansFile.
    destruct (DEAD_MANS_FILE (files st1.2)) as [lines|]; simpl.
    + apply addToBlacklist_fold. right. by rewrite Hl.
    + by rewrite Hl.
  - unfold drainDeadMansFile.
    destruct (DEAD_MANS_FILE (files st1.2)) as [lines|]; simpl; [|by rewrite Hl].
    rewrite <- Hl. unfold getTypes. clear.
    generalize (m_pluginlist st1.1). induction lines as [|x lines IH]; intros l; [done|].
    simpl. rewrite IH. unfold addToBlacklist. by destruct (contains _ _).
Qed.

Lemma loadConfig_before_drain st :
  exists st1,
    loadConfig st = drainDeadMansFile st1 /\
    files st1.2 = files st.2 /\ m_pluginlist st1.1 = m_pluginlist st.1.
Proof.
  unfold loadConfig.
  destruct (SERVER_CONFIG_FILE (files (logln "starting server..." st).2)) as [j|].
  - exists (readConfig j (logln "starting server..." st)). split; [done|].
    destruct (readConfig_frame j (logln "starting server..." st)) as [-> ->]. done.
  - by exists (logln "starting server..." st).
Qed.

(** X4.  [loadConfig] writes exactly when a dead-man's file exists.
    Without one it leaves all three files alone; with one (even an empty
    one) it leaves a config file that holds every field of the object as
    loaded, deletes the dead-man's file, and leaves the catalog file as it
    was. *)
Theorem loadConfig_writes (st : State) :
  let st' := loadConfig st in
  (DEAD_MANS_FILE (files st.2) = None -> files st'.2 = files st.2) /\
  (DEAD_MANS_FILE (files st.2) <> None ->
   SERVER_CONFIG_FILE (files st'.2) = Some (configOf st'.1) /\
   KNOWN_PLUGINS_FILE (files st'.2) = KNOWN_PLUGINS_FILE (files st.2) /\
   DEAD_MANS_FILE (files st'.2) = None).
Proof.
  intros st'. unfold st'.
  destruct (loadConfig_before_drain st) as (st1 & -> & Hf & _).
  unfold drainDeadMansFile. rewrite Hf.
  destruct (DEAD_MANS_FILE (files st.2)) as [lines|]; split; try done.
  intros _. simpl. by rewrite Hf.
Qed.

Lemma addToBlacklist_NoDup pluginID l :
  NoDup (blacklist l) -> NoDup (blacklist (addToBlacklist pluginID l)).
Proof.
  intros H. unfold addToBlacklist. destruct (contains (blacklist l) pluginID) eqn:E; [done|].
  simpl. apply NoDup_app. split; [done|]. split; [|apply NoDup_singleton].
  intros x Hx Hx'. apply list_elem_of_singleton in Hx'. subst.
  apply contains_elem_of in Hx. congruence.
Qed.

(** X5.  After the drain the blacklist holds the lines of the dead-man's
    file and what it held before, nothing else, and a blacklist without
    duplicates stays without duplicates even when lines repeat. *)
Theorem drain_blacklist_exact (st : State) (lines : list string) :
  DEAD_MANS_FILE (files st.2) = Some lines ->
  let before := getBlacklistedFiles (m_pluginlist st.1) in
  let after := getBlacklistedFiles (m_pluginlist (loadConfig st).1) in
  (forall X, X ∈ after <-> X ∈ lines \/ X ∈ before) /\
  (NoDup before -> NoDup after).
Proof.
  intros Hdm before after. unfold after, before.
  destruct (loadConfig_before_drain st) as (st1 & -> & Hf & Hl).
  unfold drainDeadMansFile. rewrite Hf, Hdm. simpl. rewrite Hl. split.
  - intros X. apply addToBlacklist_fold.
  - unfold getBlacklistedFiles. generalize (m_pluginlist st.1). clear.
    induction lines as [|x lines IH]; intros l H; [done|].
    simpl. apply IH. by apply addToBlacklist_NoDup.
Qed.

(** ** The catalog file *)

Lemma addType_blacklist t l : blacklist (addType t l) = blacklist l.
Proof. unfold addType. by destruct (replaceDuplicate t (types l)). Qed.

Lemma replaceDuplicate_fresh t ts :
  Forall (fun d => isDuplicateOf d t = false) ts -> replaceDuplicate t ts = None.
Proof.
  induction 1 as [|d ts Hd _ IH]; simpl; [done|]. by rewrite Hd, IH.
Qed.

Lemma recreate_plugins ts : forall l0,
  let l := fold_left
             (fun l e => match e with
                         | BLACKLISTED id => mkKnownPluginList (types l) (blacklist l ++ [id])
                         | PLUGIN info => addType info l
                         end) (map PLUGIN ts) l0 in
  blacklist l = blacklist l0 /\
  (distinctPlugins ts ->
   Forall (fun a => Forall (fun t => isDuplicateOf a t = false) ts) (types l0) ->
   types l = rev ts ++ types l0).
Proof.
  induction ts as [|t ts IH]; intros l0; simpl; [done|].
  destruct (IH (addType t l0)) as [Hb Ht]. split.
  - by rewrite Hb, addType_blacklist.
  - intros [Hfresh Hdist] Hacc.
    assert (Hadd : types (addType t l0) = t :: types l0).
    { unfold addType. rewrite replaceDuplicate_fresh; [done|].
      eapply Forall_impl; [exact Hacc|]. intros a Ha. by apply Forall_cons in Ha as [? _]. }
    rewrite Ht; [by rewrite Hadd, <- app_assoc|done|].
    rewrite Hadd. constructor; [done|].
    eapply Forall_impl; [exact Hacc|]. intros a Ha. by apply Forall_cons in Ha as [_ ?].
Qed.

Lemma recreate_blacklisted bl : forall l0,
  fold_left
    (fun l e => match e with
                | BLACKLISTED id => mkKnownPluginList (types l) (blacklist l ++ [id])
                | PLUGIN info => addType info l
                end) (map BLACKLISTED bl) l0 =
  mkKnownPluginList (types l0) (blacklist l0 ++ bl).
Proof.
  induction bl as [|b bl IH]; intros l0; simpl.
  - rewrite app_nil_r. by destruct l0.
  - rewrite IH. simpl. by rewrite <- app_assoc.
Qed.

Lemma recreateFromXml_createXml l anyList :
  blacklist (recreateFromXml (createXml l) anyList) = blacklist l /\
  (distinctPlugins (types l) ->
   types (recreateFromXml (createXml l) anyList) = rev (types l)).
Proof.
  unfold recreateFromXml, createXml. rewrite fold_left_app, recreate_blacklisted. simpl.
  destruct (recreate_plugins (types l) emptyList) as [Hb Ht]. split.
  - by rewrite Hb.
  - intros Hd. rewrite Ht; [by rewrite app_nil_r|done|constructor].
Qed.

(** X6.  Saving the catalog and loading it again gives the same
    blacklist, in order, and, when no descriptor is a duplicate of
    another, the same descriptors up to their order. *)
Theorem catalog_round_trip (st : State) :
  let st' := loadKnownPluginList (saveKnownPluginList st) in
  getBlacklistedFiles (m_pluginlist st'.1) = getBlacklistedFiles (m_pluginlist st.1) /\
  (distinctPlugins (getTypes (m_pluginlist st.1)) ->
   getTypes (m_pluginlist st'.1) ≡ₚ getTypes (m_pluginlist st.1)).
Proof.
  intros st'. unfold st', loadKnownPluginList, saveKnownPluginList, loadKnownPluginListInto.
  simpl. destruct (recreateFromXml_createXml (m_pluginlist st.1) (m_pluginlist st.1)) as [Hb Ht].
  split; [done|]. intros Hd. unfold getTypes. rewrite (Ht Hd). symmetry. apply Permutation_rev.
Qed.

(** ** The scan process *)

Section Probe.

Variable env : Env.

Lemma scanPlugin_formatNamed id format f :
  scanPlugin env id format f =
  match formatNamed env format with
  | None => mkRun f (Returns false f 0)
  | Some fmt =>
      let step := scanNextFile env fmt id (loadKnownPluginListInto emptyList f)
                    (DEAD_MANS_FILE f) in
      mkRun (withDeadMans (deadMansInFlight step) f)
        match scanEnding step with
        | ScanReturned plist failedFiles deadMans ms =>
            Returns match failedFiles with [] => true | _ => false end
              (saveKnownPluginListFrom
                 (fold_left (fun l x => addToBlacklist x l) failedFiles plist)
                 (withDeadMans deadMans f)) ms
        | ScanCrashed exitCode ms => Crashes exitCode ms
        | ScanHangs => Hangs
        end
  end.
Proof. reflexivity. Qed.

Lemma formatNamed_None format :
  format <> "VST" -> format <> "VST3" ->
  (JUCE_MAC env = false \/ format <> "AudioUnit") ->
  formatNamed env format = None.
Proof.
  intros H1 H2 H3. unfold formatNamed.
  destruct (Z.eqb_spec (compare format "VST") 0) as [E|_]; [by apply compare_0 in E|].
  destruct (Z.eqb_spec (compare format "VST3") 0) as [E|_]; [by apply compare_0 in E|].
  destruct H3 as [->|H3]; [done|].
  destruct (Z.eqb_spec (compare format "AudioUnit") 0) as [E|_]; [by apply compare_0 in E|].
  by rewrite andb_false_r.
Qed.

(** X7.  For a format name other than "VST", "VST3" and, on a Mac
    build only, "AudioUnit", [scanPlugin] returns false at once and touches
    no file; the scanner is not run. *)
Theorem scanPlugin_unknown_format (id format : string) (f : Files) :
  format <> "VST" -> format <> "VST3" ->
  (JUCE_MAC env = false \/ format <> "AudioUnit") ->
  scanPlugin env id format f = mkRun f (Returns false f 0).
Proof.
  intros H1 H2 H3. by rewrite scanPlugin_formatNamed, (formatNamed_None format H1 H2 H3).
Qed.

Lemma whileRunning_catalog id format f :
  KNOWN_PLUGINS_FILE (whileRunning (scanProcess env id format f)) = KNOWN_PLUGINS_FILE f.
Proof.
  unfold scanProcess. simpl. rewrite scanPlugin_formatNamed.
  by destruct (formatNamed env format).
Qed.

(** X8.  When the scanner returns, [scanPlugin] succeeds exactly when no
    file failed, and the catalog file it leaves, loaded into any list,
    blacklists the failed files and what the scanner's list had
    blacklisted, nothing else.  The config file is not written. *)
Theorem scanPlugin_records_failures (id format : string) (f : Files)
    (fmt : AudioPluginFormat) (plist : KnownPluginList) (failedFiles : list string)
    (deadMans : option (list string)) (ms : Z) :
  formatNamed env format = Some fmt ->
  scanEnding (scanNextFile env fmt id (loadKnownPluginListInto emptyList f)
                (DEAD_MANS_FILE f)) = ScanReturned plist failedFiles deadMans ms ->
  exists success f',
    ending (scanPlugin env id format f) = Returns success f' ms /\
    (success = true <-> failedFiles = []) /\
    SERVER_CONFIG_FILE f' = SERVER_CONFIG_FILE f /\
    DEAD_MANS_FILE f' = deadMans /\
    forall anyList X,
      X ∈ getBlacklistedFiles (loadKnownPluginListInto anyList f') <->
      X ∈ failedFiles \/ X ∈ getBlacklistedFiles plist.
Proof.
  intros Hfmt Hscan. rewrite scanPlugin_formatNamed, Hfmt. simpl. rewrite Hscan.
  eexists _, _. split; [reflexivity|]. split; [by destruct failedFiles|].
  split; [done|]. split; [done|].
  intros anyList X. unfold loadKnownPluginListInto, getBlacklistedFiles. simpl.
  destruct (recreateFromXml_createXml
              (fold_left (fun l x => addToBlacklist x l) failedFiles plist) anyList)
    as [-> _].
  apply addToBlacklist_fold.
Qed.

(** X9.  A probe that cannot be started, is still running after the
    timeout, or crashes leaves the catalog file and the config file as they
    were; one that cannot be started leaves every file as it was. *)
Theorem probe_without_result (id fmt : string) (st : State) :
  let st' := scanNextPlugin env id fmt st in
  let started := procStart env [currentExecutableFile env; "-scan"; id +:+ "|" +:+ fmt] in
  let proc := scanProcess env id fmt (files st.2) in
  started = false \/ isRunningAfter 30000 proc = true \/
    (exists exitCode ms, ending proc = Crashes exitCode ms) ->
  KNOWN_PLUGINS_FILE (files st'.2) = KNOWN_PLUGINS_FILE (files st.2) /\
  SERVER_CONFIG_FILE (files st'.2) = SERVER_CONFIG_FILE (files st.2) /\
  (started = false -> files st'.2 = files st.2).
Proof.
  intros st' started proc H.
  split; [|split; [apply scanNextPlugin_config|]].
  - pose proof (whileRunning_catalog id fmt (files st.2)) as Hw. fold proc in Hw.
    unfold st', scanNextPlugin. cbv zeta.
    change (files (emit (ProcStart [currentExecutableFile env; "-scan"; id +:+ "|" +:+ fmt] true) st).2)
      with (files st.2).
    fold started. fold proc.
    destruct started; [|done].
    destruct (isRunningAfter 30000 proc) eqn:Hr; [done|].
    destruct H as [H|[H|(ec & ms & H)]]; [done..|].
    assert (Hx : filesAtExit proc = whileRunning proc) by (unfold filesAtExit; by rewrite H).
    destruct (negb _); simpl; by rewrite Hx.
  - unfold st', scanNextPlugin. fold started. intros ->. done.
Qed.

(** X10.  When the probe of an identifier starts and the scanner comes
    back within the timeout with the identifier among the failed files,
    the catalog the parent reloads has it on the blacklist, and no later
    pass probes it, under any format and include-list. *)
Theorem failed_probe_is_blacklisted (id format : string) (st : State)
    (fmt : AudioPluginFormat) (plist : KnownPluginList) (failedFiles : list string)
    (deadMans : option (list string)) (ms : Z) :
  procStart env [currentExecutableFile env; "-scan"; id +:+ "|" +:+ format] = true ->
  formatNamed env format = Some fmt ->
  scanEnding (scanNextFile env fmt id (loadKnownPluginListInto emptyList (files st.2))
                (DEAD_MANS_FILE (files st.2))) = ScanReturned plist failedFiles deadMans ms ->
  ms <= 30000 ->
  id ∈ failedFiles ->
  let st' := loadKnownPluginList (scanNextPlugin env id format st) in
  id ∈ getBlacklistedFiles (m_pluginlist st'.1) /\
  forall include fmt', needsProbe env st'.1 include fmt' id = false.
Proof.
  intros Hstart Hfmt Hscan Hms Hid st'.
  destruct (scanPlugin_records_failures id format (files st.2) fmt plist failedFiles
              deadMans ms Hfmt Hscan) as (success & f' & He & Hs & _ & _ & Hb).
  assert (Hfiles : files (scanNextPlugin env id format st).2 = f').
  { unfold scanNextPlugin. rewrite Hstart. cbv zeta.
    change (files (emit (ProcStart [currentExecutableFile env; "-scan"; id +:+ "|" +:+ format] true) st).2)
      with (files st.2).
    assert (Hr : isRunningAfter 30000 (scanProcess env id format (files st.2)) = false).
    { unfold isRunningAfter, scanProcess. simpl. rewrite He. apply Z.ltb_ge. lia. }
    assert (Hx : filesAtExit (scanProcess env id format (files st.2)) = f').
    { unfold filesAtExit, scanProcess. simpl. by rewrite He. }
    rewrite Hr. destruct (negb _); simpl; by rewrite Hx. }
  assert (Hin : id ∈ getBlacklistedFiles (m_pluginlist st'.1)).
  { unfold st', loadKnownPluginList. simpl. rewrite Hfiles. apply Hb. by left. }
  split; [done|]. intros include fmt'. unfold needsProbe.
  apply contains_elem_of in Hin. rewrite Hin. simpl. by rewrite andb_false_r.
Qed.

End Probe.

(** ** More on the scan pass *)

Section Pass.

Variable env : Env.

(** X11.  A name is in the exclusion set after a pass exactly when it was
    in it before and a plugin of that name was enumerated: a pass never
    adds a name. *)
Theorem exclusions_after_pass (include : list string) (st : State) (N : string) :
  N ∈ m_pluginexclude (scanForPlugins env include st).1 <->
  N ∈ m_pluginexclude st.1 /\ observed env st.1 N.
Proof.
  destruct (scanForPlugins_spec env include st) as (-> & _).
  simpl. rewrite !elem_of_difference, elem_of_list_to_set, discovered_names.
  split.
  - intros [HN H]. split; [done|].
    destruct (decide (N ∈ map (fun p => getNameOfPluginFromIdentifier env p.1 p.2)
                            (discovered env st.1))) as [Hin|Hout].
    + by apply discovered_names in Hin.
    + destruct H. split; [done|]. intros Ho. by apply Hout, discovered_names.
  - intros [HN Ho]. split; [done|]. by intros [_ H].
Qed.

(** X12.  In the server object a pass changes the catalog and the
    exclusion set only; it does not write the config file; and all it adds
    to the trace are log lines, splash texts and process events. *)
Theorem scanForPlugins_frame (include : list string) (st : State) :
  let s := st.1 in
  let st' := scanForPlugins env include st in
  let s' := st'.1 in
  (m_id s' = m_id s /\ m_port s' = m_port s /\ m_host s' = m_host s /\
   m_enableAU s' = m_enableAU s /\ m_enableVST s' = m_enableVST s /\
   m_enableVST2 s' = m_enableVST2 s /\ m_screenJpgQuality s' = m_screenJpgQuality s /\
   m_screenDiffDetection s' = m_screenDiffDetection s /\ m_workers s' = m_workers s) /\
  SERVER_CONFIG_FILE (files st'.2) = SERVER_CONFIG_FILE (files st.2) /\
  exists evs, trace st'.2 = evs ++ trace st.2 /\ Forall isScanEvent evs.
Proof.
  intros s st' s'. unfold s', st'.
  destruct (scanForPlugins_spec env include st) as (-> & Hc & _ & evs & T & F & _).
  split; [by repeat split|]. split; [done|]. eauto.
Qed.

Lemma loadKnownPluginListInto_twice pl f :
  loadKnownPluginListInto (loadKnownPluginListInto pl f) f = loadKnownPluginListInto pl f.
Proof. unfold loadKnownPluginListInto. by destruct (KNOWN_PLUGINS_FILE f). Qed.

(** X13.  A pass that enumerates no plugin (no format enabled, or nothing
    installed) launches no probe and writes no file, reloads and sorts the
    catalog, and empties the exclusion set. *)
Theorem pass_over_nothing (include : list string) (st : State) :
  discovered env st.1 = [] ->
  let st' := scanForPlugins env include st in
  launches (trace st'.2) = launches (trace st.2) /\
  files st'.2 = files st.2 /\
  m_pluginexclude st'.1 = ∅ /\
  m_pluginlist st'.1 = sort (loadKnownPluginListInto (m_pluginlist st.1) (files st.2)).
Proof.
  intros Hd st'. unfold st'.
  pose proof (scanForPlugins_pluginlist env include st) as Hl.
  destruct (scanForPlugins_spec env include st) as (Hs & _ & U & evs & T & _ & L).
  rewrite Hd in U, L, Hs. specialize (U eq_refl).
  change (rev (launches evs) = []) in L.
  split; [|split; [done|split]].
  - rewrite T, launches_app. apply (f_equal (@rev _)) in L.
    rewrite rev_involutive in L. by rewrite L.
  - rewrite Hs. simpl. rewrite difference_empty_L. apply difference_diag_L.
  - by rewrite Hl, U, loadKnownPluginListInto_twice.
Qed.

Lemma shouldExclude_false s N L :
  shouldExclude s N L = false ->
  ~ namesHost N /\ (L <> [] -> N ∈ L) /\ (L = [] -> N ∉ m_pluginexclude s).
Proof.
  unfold shouldExclude. rewrite <- namesHost_guard.
  destruct (containsIgnoreCase N "AGridder" || containsIgnoreCase N "AudioGridder"); [done|].
  destruct L as [|x L].
  - simpl. intros H. split; [done|]. split; [done|]. intros _ Hin.
    apply elem_of_elements, matches_elem_of in Hin. congruence.
  - replace (0 <? Z.of_nat (List.length (x :: L))) with true
      by (symmetry; apply Z.ltb_lt; simpl; lia).
    rewrite negb_false_iff, matches_elem_of. by repeat split.
Qed.

Lemma launched_required include st evs args :
  rev (launches evs) =
    map (probeArgs env)
      (List.filter (fun p => needsProbe env (atLoopStart st) include p.1 p.2)
         (discovered env st.1)) ->
  args ∈ launches evs ->
  exists fmt fileOrId,
    (fmt, fileOrId) ∈ discovered env st.1 /\
    args = probeArgs env (fmt, fileOrId) /\
    probeRequired env (atLoopStart st) include fmt fileOrId.
Proof.
  intros L Hin. apply list_elem_of_In, in_rev in Hin. rewrite L in Hin.
  apply in_map_iff in Hin as ([fmt id] & <- & Hp).
  apply filter_In in Hp as [Hd Hn]. simpl in Hn.
  apply needsProbe_required in Hn.
  exists fmt, id. split; [by apply list_elem_of_In|]. done.
Qed.

(** X14.  Every probe a pass launches is the probe of an enumerated
    plugin that is not on the blacklist the loops start with and whose
    name carries no product identifier of the host; with an include-list
    the name is on it, without one the name is not in the exclusion
    set. *)
Theorem probes_are_permitted (include : list string) (st : State) :
  exists evs,
    trace (scanForPlugins env include st).2 = evs ++ trace st.2 /\
    forall args, args ∈ launches evs ->
      exists fmt fileOrId,
        (fmt, fileOrId) ∈ discovered env st.1 /\
        args = probeArgs env (fmt, fileOrId) /\
        (fileOrId ∉ getBlacklistedFiles (m_pluginlist (atLoopStart st))) /\
        let name := getNameOfPluginFromIdentifier env fmt fileOrId in
        ~ namesHost name /\
        (include <> [] -> name ∈ include) /\
        (include = [] -> name ∉ m_pluginexclude st.1).
Proof.
  destruct (scanForPlugins_spec env include st) as (_ & _ & _ & evs & T & _ & L).
  exists evs. split; [done|]. intros args Hin.
  destruct (launched_required include st evs args L Hin)
    as (fmt & id & Hd & -> & _ & Hb & Hx).
  apply shouldExclude_false in Hx as (Hh & Hi & He).
  exists fmt, id. by repeat split.
Qed.

(** X15.  When the server starts with a dead-man's file and no catalog
    file, the pass that follows [loadConfig] probes none of the identifiers
    the dead-man's file held. *)
Theorem recovered_identifiers_skipped (include : list string) (st : State)
    (lines : list string) :
  DEAD_MANS_FILE (files st.2) = Some lines ->
  KNOWN_PLUGINS_FILE (files st.2) = None ->
  exists evs,
    trace (scanForPlugins env include (loadConfig st)).2 = evs ++ trace (loadConfig st).2 /\
    forall args, args ∈ launches evs ->
      exists fmt fileOrId,
        args = probeArgs env (fmt, fileOrId) /\ fileOrId ∉ lines.
Proof.
  intros Hdm Hk.
  destruct (scanForPlugins_spec env include (loadConfig st)) as (_ & _ & _ & evs & T & _ & L).
  exists evs. split; [done|]. intros args Hin.
  destruct (launched_required include (loadConfig st) evs args L Hin)
    as (fmt & id & _ & -> & _ & Hb & _).
  exists fmt, id. split; [done|]. intros Hl. apply Hb.
  unfold atLoopStart, loadKnownPluginListInto. rewrite loadConfig_catalog_file, Hk.
  simpl. destruct (loadConfig_before_drain st) as (st1 & -> & Hf & Hl1).
  unfold drainDeadMansFile. rewrite Hf, Hdm. simpl.
  apply addToBlacklist_fold. by left.
Qed.

(** X16.  When a catalog file exists a pass does not depend on the
    catalog the object holds when the pass starts: descriptors and
    blacklist in memory are replaced by those of the file before the first
    plugin is looked at. *)
Theorem pass_reads_catalog_from_file (include : list string) (s : Server) (w : World)
    (pl : KnownPluginList) :
  KNOWN_PLUGINS_FILE (files w) <> None ->
  scanForPlugins env include (set_pluginlist pl s, w) = scanForPlugins env include (s, w).
Proof.
  intros Hfile. unfold scanForPlugins. cbv zeta.
  assert (H : loadKnownPluginList (logln "scanning for plugins..." (set_pluginlist pl s, w)) =
              loadKnownPluginList (logln "scanning for plugins..." (s, w))).
  { unfold loadKnownPluginList, loadKnownPluginListInto. simpl.
    by destruct (KNOWN_PLUGINS_FILE (files w)). }
  change (enabledFormats env (logln "scanning for plugins..." (set_pluginlist pl s, w)).1)
    with (enabledFormats env (logln "scanning for plugins..." (s, w)).1).
  change (m_pluginexclude (logln "scanning for plugins..." (set_pluginlist pl s, w)).1)
    with (m_pluginexclude (logln "scanning for plugins..." (s, w)).1).
  by rewrite H.
Qed.

(** ** More on [addPlugins] *)

(** X18.  With a null callback [addPlugins] makes no callback call, and
    the object and the files end as they do with a callback. *)
Theorem addPlugins_null_callback (names : list string) (st : State) :
  callbacks (trace (addPlugins env names false st).2) = callbacks (trace st.2) /\
  (addPlugins env names true st).1 = (addPlugins env names false st).1 /\
  files (addPlugins env names true st).2 = files (addPlugins env names false st).2.
Proof.
  unfold addPlugins. rewrite reportFound_spec. split; [|done].
  rewrite <- (scanForPlugins_callbacks env names st). reflexivity.
Qed.

(** X19.  When [addPlugins] is done the config file and the catalog file
    hold what the object holds, and the object is as the scan left it. *)
Theorem addPlugins_persists (names : list string) (fn : bool) (st : State) :
  persisted (addPlugins env names fn st) /\
  (addPlugins env names fn st).1 = (scanForPlugins env names st).1.
Proof.
  unfold addPlugins. destruct fn; [rewrite reportFound_spec|]; by repeat split.
Qed.

(** ** More on the accept loop *)

Lemma lazyCleanup_filter running ws :
  lazyCleanup running ws =
  (List.filter (fun w => negb (running w)) ws, List.filter running ws).
Proof.
  induction ws as [|w ws IH]; [done|]. simpl. rewrite IH. simpl.
  by destruct (running w).
Qed.

(** X20.  The lazy cleanup moves exactly the workers whose thread has
    ended to the dead list and keeps exactly the running ones, both in
    their order; no worker is lost or doubled. *)
Theorem lazyCleanup_partition (running : Worker -> bool) (ws : list Worker) :
  let r := lazyCleanup running ws in
  r.1 = List.filter (fun w => negb (running w)) ws /\
  r.2 = List.filter running ws /\
  r.1 ++ r.2 ≡ₚ ws.
Proof.
  intros r. unfold r. rewrite lazyCleanup_filter. simpl. repeat split.
  induction ws as [|w ws IH]; [done|]. simpl. destruct (running w); simpl.
  - rewrite <- Permutation_middle. by constructor.
  - by constructor.
Qed.

Lemma started_app a b : started (a ++ b) = started a ++ started b.
Proof. apply omap_app. Qed.

Lemma accepted_app a b : accepted (a ++ b) = accepted a ++ accepted b.
Proof. apply omap_app. Qed.

Lemma cleared_app a b : cleared (a ++ b) = cleared a ++ cleared b.
Proof. apply flat_map_app. Qed.

(** What the accept loop does, for every script. *)
Lemma acceptLoop_spec script : forall st,
  let st' := acceptLoop script st in
  st'.1 = set_workers (m_workers st'.1) st.1 /\
  files st'.2 = files st.2 /\
  exists evs,
    trace st'.2 = evs ++ trace st.2 /\
    Forall isAcceptEvent evs /\
    started evs = map mkWorker (accepted evs) /\
    m_workers st'.1 ++ cleared evs ≡ₚ m_workers st.1 ++ started evs.
Proof.
  induction script as [|t rest IH]; intros st; simpl.
  - split; [by destruct st as [[] ?]|]. split; [done|].
    exists []. simpl. rewrite !app_nil_r. by repeat split.
  - destruct (currentThreadShouldExit t).
    + split; [by destruct st as [[] ?]|]. split; [done|].
      exists []. simpl. rewrite !app_nil_r. by repeat split.
    + destruct (waitForNextConnection t) as [c|].
      * set (w := mkWorker c).
        set (r := lazyCleanup _ _).
        set (st1 := emit (CallAsyncClear r.1) _).
        destruct (IH st1) as (Hs & Hf & evs & T & F & Hst & Hp).
        split; [rewrite Hs; by destruct st as [[] ?]|]. split; [by rewrite Hf|].
        exists (evs ++ [CallAsyncClear r.1; StartThread w;
                        Logln ("new client " +:+ getHostName c); Accept (Some c)]).
        split; [by rewrite T, <- app_assoc|].
        split; [apply Forall_app; split; [done|by repeat constructor]|].
        split; [rewrite started_app, accepted_app, map_app, Hst; done|].
        rewrite started_app, cleared_app. simpl. rewrite app_nil_r.
        change (m_workers st1.1) with r.2 in Hp.
        pose proof (lazyCleanup_partition (isThreadRunning t) (m_workers st.1 ++ [w]))
          as (_ & _ & Hr).
        fold r in Hr.
        rewrite app_assoc, Hp.
        transitivity ((r.1 ++ r.2) ++ started evs).
        { rewrite (Permutation_app_comm _ r.1), app_assoc. done. }
        rewrite Hr, <- app_assoc. apply Permutation_app_head, Permutation_app_comm.
      * destruct (IH (emit (Accept None) st)) as (Hs & Hf & evs & T & F & Hst & Hp).
        split; [rewrite Hs; by destruct st as [[] ?]|]. split; [by rewrite Hf|].
        exists (evs ++ [Accept None]).
        split; [by rewrite T, <- app_assoc|].
        split; [apply Forall_app; split; [done|by repeat constructor]|].
        split; [rewrite started_app, accepted_app, map_app, Hst; simpl; by rewrite !app_nil_r|].
        rewrite started_app, cleared_app. simpl. by rewrite !app_nil_r.
Qed.

(** X21.  Over any run of the accept loop every accepted connection gets
    exactly one worker started, in the order of arrival, and every worker
    (registered before or started since) is in the end either still
    registered or was handed to an asynchronous clear. *)
Theorem accept_loop_keeps_workers (script : list Tick) (st : State) :
  let st' := acceptLoop script st in
  exists evs,
    trace st'.2 = evs ++ trace st.2 /\
    started evs = map mkWorker (accepted evs) /\
    m_workers st'.1 ++ cleared evs ≡ₚ m_workers st.1 ++ started evs.
Proof.
  destruct (acceptLoop_spec script st) as (_ & _ & evs & T & _ & Hst & Hp). eauto.
Qed.

Lemma accept_events_launches evs : Forall isAcceptEvent evs -> launches evs = [].
Proof.
  induction 1 as [|e evs He _ IH]; [done|].
  destruct e; try done; exact IH.
Qed.

Lemma accept_events_callbacks evs : Forall isAcceptEvent evs -> callbacks evs = [].
Proof.
  induction 1 as [|e evs He _ IH]; [done|].
  destruct e; try done; exact IH.
Qed.

(** X22.  The accept loop changes the worker registry and nothing else
    of the server object, writes no file, launches no probe and makes no
    callback call. *)
Theorem acceptLoop_frame (script : list Tick) (st : State) :
  let st' := acceptLoop script st in
  st'.1 = set_workers (m_workers st'.1) st.1 /\
  files st'.2 = files st.2 /\
  launches (trace st'.2) = launches (trace st.2) /\
  callbacks (trace st'.2) = callbacks (trace st.2).
Proof.
  destruct (acceptLoop_spec script st) as (Hs & Hf & evs & T & F & _).
  split; [done|]. split; [done|].
  rewrite T, launches_app, callbacks_app.
  by rewrite accept_events_launches, accept_events_callbacks.
Qed.

(** X23.  Once the thread is told to exit the loop ends: what the script
    holds from that turn on, waiting connections included, is not looked
    at. *)
Theorem acceptLoop_stops_at_exit (pre rest : list Tick) (t : Tick) (st : State) :
  currentThreadShouldExit t = true ->
  acceptLoop (pre ++ t :: rest) st = acceptLoop pre st.
Proof.
  intros Ht. revert st. induction pre as [|p pre IH]; intros st; simpl.
  - by rewrite Ht.
  - destruct (currentThreadShouldExit p); [done|].
    destruct (waitForNextConnection p); apply IH.
Qed.

(** ** More on [run] *)

Lemma persisted_saved st : persisted (saveKnownPluginList (saveConfig st)).
Proof. done. Qed.

Lemma persisted_acceptLoop script st : persisted st -> persisted (acceptLoop script st).
Proof.
  intros [Hc Hk]. destruct (acceptLoop_spec script st) as (Hs & Hf & _).
  unfold persisted. rewrite Hf, Hs. done.
Qed.

(** X24.  When [run] ends or blocks in the accept loop, whether or not
    the listener could be created, the config file and the catalog file
    hold what the object holds. *)
Theorem run_persists (script : list Tick) (st : State) :
  persisted (run env script st).
Proof.
  unfold run. cbv zeta.
  set (st3 := saveKnownPluginList (saveConfig (scanForPlugins0 env st))).
  assert (H3 : persisted st3) by apply persisted_saved.
  set (st4 := if JUCE_MAC env then _ else _).
  assert (H4 : persisted st4) by (unfold st4; by destruct (JUCE_MAC env)).
  destruct (createListener env _ _).
  - by apply persisted_acceptLoop.
  - exact H4.
Qed.

(** X25.  [run] creates the listener on [m_port + m_id] once, after the
    scan: no connection is accepted before that and no probe is launched
    after it; when the listener cannot be created the only thing that
    follows is the log line. *)
Theorem run_scans_before_listening (script : list Tick) (st : State) :
  let port := m_port st.1 + m_id st.1 in
  let ok := createListener env port (m_host st.1) in
  exists evs1 evs2,
    trace (run env script st).2 =
      evs2 ++ CreateListener port (m_host st.1) ok :: evs1 ++ trace st.2 /\
    connections evs1 = [] /\
    launches evs2 = [] /\
    (ok = false -> evs2 = [Logln "failed to create listener"]).
Proof.
  intros port ok. unfold ok, port, run, scanForPlugins0. cbv zeta.
  destruct (scanForPlugins_spec env [] st) as (Hs & _ & _ & evs & T & F & _).
  set (sc := scanForPlugins env [] st) in *.
  assert (Hid : m_id sc.1 = m_id st.1) by by rewrite Hs.
  assert (Hport : m_port sc.1 = m_port st.1) by by rewrite Hs.
  assert (Hhost : m_host sc.1 = m_host st.1) by by rewrite Hs.
  set (st4 := if JUCE_MAC env then _ else _).
  assert (H4 : st4.1 = sc.1 /\ exists e4, trace st4.2 = e4 ++ trace st.2 /\ connections e4 = []).
  { unfold st4. destruct (JUCE_MAC env); (split; [done|]).
    - exists (SetNoSigPipe :: HideSplashWindow :: evs).
      split; [exact (f_equal (fun l => SetNoSigPipe :: HideSplashWindow :: l) T)|].
      change (connections evs = []). by apply scan_events_connections.
    - exists (HideSplashWindow :: evs).
      split; [exact (f_equal (fun l => HideSplashWindow :: l) T)|].
      change (connections evs = []). by apply scan_events_connections. }
  destruct H4 as (H41 & e4 & T4 & C4).
  rewrite H41, Hid, Hport, Hhost.
  destruct (createListener env (m_port st.1 + m_id st.1) (m_host st.1)).
  - match goal with |- context [acceptLoop script ?s] =>
      destruct (acceptLoop_spec script s) as (_ & _ & ea & Ta & Fa & _) end.
    eexists (Logln _ :: e4), (ea ++ [Logln _]).
    split; [rewrite Ta; simpl; rewrite T4, <- app_assoc; reflexivity|].
    split; [done|]. split; [|done].
    rewrite launches_app, (accept_events_launches ea Fa). done.
  - eexists (Logln _ :: e4), [Logln _].
    split; [simpl; rewrite T4; reflexivity|]. by repeat split.
Qed.

End Pass.

(** ** The second installation at work *)

Lemma drain_blacklist_exact_witness :
  let before := getBlacklistedFiles (m_pluginlist Demo.afterCrash.1) in
  let after := getBlacklistedFiles (m_pluginlist (loadConfig Demo.afterCrash).1) in
  (forall X, X ∈ after <-> X ∈ ["/p/X.vst3"] \/ X ∈ before) /\
  (NoDup before -> NoDup after).
Proof.
  apply (drain_blacklist_exact Demo.afterCrash ["/p/X.vst3"]). reflexivity.
Defined.

Lemma scanPlugin_unknown_format_witness :
  scanPlugin Lab.env "/p/Good.vst3" "AudioUnit" Demo.noFiles =
  mkRun Demo.noFiles (Returns false Demo.noFiles 0).
Proof.
  apply (scanPlugin_unknown_format Lab.env "/p/Good.vst3" "AudioUnit" Demo.noFiles).
  - discriminate.
  - discriminate.
  - left. reflexivity.
Defined.

Lemma scanPlugin_records_failures_witness :
  exists success f',
    ending (scanPlugin Lab.env "/p/Bad.vst3" "VST3" Demo.noFiles) = Returns success f' 500 /\
    (success = true <-> ["/p/Bad.vst3"] = []) /\
    SERVER_CONFIG_FILE f' = SERVER_CONFIG_FILE Demo.noFiles /\
    DEAD_MANS_FILE f' = Some [] /\
    forall anyList X,
      X ∈ getBlacklistedFiles (loadKnownPluginListInto anyList f') <->
      X ∈ ["/p/Bad.vst3"] \/ X ∈ getBlacklistedFiles emptyList.
Proof.
  apply (scanPlugin_records_failures Lab.env "/p/Bad.vst3" "VST3" Demo.noFiles
           VST3PluginFormat emptyList ["/p/Bad.vst3"] (Some []) 500).
  - reflexivity.
  - reflexivity.
Defined.

Lemma probe_without_result_witness :
  let st' := scanNextPlugin Lab.env "/p/Slow.vst3" "VST3" Lab.start in
  let started :=
    procStart Lab.env [currentExecutableFile Lab.env; "-scan"; "/p/Slow.vst3" +:+ "|" +:+ "VST3"] in
  KNOWN_PLUGINS_FILE (files st'.2) = KNOWN_PLUGINS_FILE (files Lab.start.2) /\
  SERVER_CONFIG_FILE (files st'.2) = SERVER_CONFIG_FILE (files Lab.start.2) /\
  (started = false -> files st'.2 = files Lab.start.2).
Proof.
  apply (probe_without_result Lab.env "/p/Slow.vst3" "VST3" Lab.start).
  right. left. reflexivity.
Defined.

Lemma failed_probe_is_blacklisted_witness :
  let st' := loadKnownPluginList (scanNextPlugin Lab.env "/p/Bad.vst3" "VST3" Lab.start) in
  "/p/Bad.vst3" ∈ getBlacklistedFiles (m_pluginlist st'.1) /\
  forall include fmt', needsProbe Lab.env st'.1 include fmt' "/p/Bad.vst3" = false.
Proof.
  apply (failed_probe_is_blacklisted Lab.env "/p/Bad.vst3" "VST3" Lab.start
           VST3PluginFormat emptyList ["/p/Bad.vst3"] (Some []) 500).
  - reflexivity.
  - reflexivity.
  - reflexivity.
  - lia.
  - apply list_elem_of_here.
Defined.

Lemma pass_over_nothing_witness :
  let st' := scanForPlugins Lab.env [] Lab.idle in
  launches (trace st'.2) = launches (trace Lab.idle.2) /\
  files st'.2 = files Lab.idle.2 /\
  m_pluginexclude st'.1 = ∅ /\
  m_pluginlist st'.1 =
    sort (loadKnownPluginListInto (m_pluginlist Lab.idle.1) (files Lab.idle.2)).
Proof.
  apply (pass_over_nothing Lab.env [] Lab.idle). reflexivity.
Defined.

Lemma rescan_without_probes_witness :
  let st1 := scanForPlugins (Demo.env true) [] (Demo.server, mkWorld Demo.noFiles []) in
  let st2 := scanForPlugins (Demo.env true) [] st1 in
  m_pluginlist st2.1 = m_pluginlist st1.1.
Proof.
  apply (rescan_without_probes (Demo.env true) [] (Demo.server, mkWorld Demo.noFiles [])).
  - vm_compute. discriminate.
  - vm_compute. reflexivity.
Defined.

Lemma pass_reads_catalog_from_file_witness :
  scanForPlugins Lab.env []
    (set_pluginlist (mkKnownPluginList [] ["/p/Good.vst3"]) Lab.server,
     mkWorld (mkFiles None (Some []) None) []) =
  scanForPlugins Lab.env [] (Lab.server, mkWorld (mkFiles None (Some []) None) []).
Proof.
  apply (pass_reads_catalog_from_file Lab.env [] Lab.server
           (mkWorld (mkFiles None (Some []) None) [])
           (mkKnownPluginList [] ["/p/Good.vst3"])).
  discriminate.
Defined.

Lemma recovered_identifiers_skipped_witness :
  exists evs,
    trace (scanForPlugins (Demo.env true) [] (loadConfig Demo.afterCrash)).2 =
      evs ++ trace (loadConfig Demo.afterCrash).2 /\
    forall args, args ∈ launches evs ->
      exists fmt fileOrId,
        args = probeArgs (Demo.env true) (fmt, fileOrId) /\ fileOrId ∉ ["/p/X.vst3"].
Proof.
  apply (recovered_identifiers_skipped (Demo.env true) [] Demo.afterCrash ["/p/X.vst3"]).
  - reflexivity.
  - reflexivity.
Defined.

Lemma acceptLoop_stops_at_exit_witness :
  acceptLoop Lab.script Lab.start = acceptLoop (take 3 Lab.script) Lab.start.
Proof.
  apply (acceptLoop_stops_at_exit (take 3 Lab.script) []
           (mkTick true (Some Lab.alice) (fun _ => true)) Lab.start).
  reflexivity.
Defined.

(** One pass over the three plugins: Good is catalogued, Bad is
    blacklisted, Slow is killed and leaves its name in the dead-man's
    file; the name that matches no installed plugin leaves the
    exclusion set. *)
Example pass_over_three :
  let st := scanForPlugins Lab.env [] Lab.start in
  map fileOrIdentifier (getTypes (m_pluginlist st.1)) = ["/p/Good.vst3"] /\
  getBlacklistedFiles (m_pluginlist st.1) = ["/p/Bad.vst3"] /\
  DEAD_MANS_FILE (files st.2) = Some ["/p/Slow.vst3"] /\
  elements (m_pluginexclude st.1) = [] /\
  List.length (launches (trace st.2)) = 3%nat /\
  List.filter (fun e => match e with ProcKill => true | _ => false end) (trace st.2)
    = [ProcKill].
Proof. vm_compute. done. Qed.

(** The accept loop over the script: both clients get a worker, Alice's
    ended worker is cleared when Bob connects, Bob's stays registered. *)
Example accept_two_clients :
  let st := acceptLoop Lab.script Lab.start in
  m_workers st.1 = [mkWorker Lab.bob] /\
  cleared (trace st.2) = [mkWorker Lab.alice] /\
  rev (started (trace st.2)) = [mkWorker Lab.alice; mkWorker Lab.bob].
Proof. vm_compute. done. Qed.
